(** * dlpc350: a shallow embedding of the DLPC350 USB HID protocol engine

    The development follows [src/dlpc350.py] method by method.  A method of
    the Python class [DLPC350] becomes a computation in the monad [M]: it
    threads the session object ([self]) and either returns a value or raises
    a Python exception.  The session object carries the HID transport, which
    is modelled as the deterministic test device of [src/fakehid.py] extended
    with a script of responses.

    Conventions.
    - Python integers are unbounded: they are [Z], and [&], [|], [<<], [>>]
      are [Z.land], [Z.lor], [Z.shiftl], [Z.shiftr].
    - Python floats are IEEE 754 binary64 values: they are primitive floats.
    - Keyword arguments with defaults are passed explicitly.
    - [print] and [dumpPacket] only write to the console; they are left out,
      and so is the [debug] test that guards them. *)

From Stdlib Require Import String ZArith List Bool Lia Floats Uint63.
Import ListNotations.

Set Warnings "-inexact-float".

Open Scope Z_scope.

(** ** Exceptions and outcomes *)

(** The exceptions the modelled methods can raise: [IndexError] comes from
    list subscripts, [SettingsError] is the class declared in the source. *)
Inductive exn : Type :=
| IndexError
| SettingsError (mismatch : string).

(** The outcome of running a method.  [OutOfFuel] is not a Python behaviour:
    it marks a [while] loop that was unrolled a bounded number of times and
    did not finish within the bound. *)
Inductive outcome (A : Type) : Type :=
| Ret (a : A)
| Raise (e : exn)
| OutOfFuel.

Arguments Ret {A} a.
Arguments Raise {A} e.
Arguments OutOfFuel {A}.

(** ** The transport *)

(** The object bound to [self.dlp_hid].  [written] logs every buffer passed
    to [write], oldest first; [readlog] logs the [max_length] of every [read];
    [incoming] is the script of responses still to be delivered. *)
Record Hid : Type := mkHid {
  written : list (list Z);
  readlog : list nat;
  incoming : list (list Z)
}.

(** ** The session object *)

(** The dictionary [self.status]; its key set is fixed at construction. *)
Record Status : Type := mkStatus {
  hardware : Z;
  system : Z;
  main : Z;
  displaymode : Z;
  inputsource : Z;
  ledRed : Z;
  ledGreen : Z;
  ledBlue : Z
}.

(** The attributes of a [DLPC350] instance.  [exposureTime] and [framePeriod]
    do not exist until [setPatternExposureTime] assigns them. *)
Record DLPC350 : Type := mkDLPC350 {
  debug : Z;
  dryrun : Z;
  seqN : Z;
  connected : Z;
  status : Status;
  exposureTime : option (list Z);
  framePeriod : option (list Z);
  dlp_hid : Hid
}.

Definition set_seqN (n : Z) (self : DLPC350) : DLPC350 :=
  mkDLPC350 (debug self) (dryrun self) n (connected self) (status self)
            (exposureTime self) (framePeriod self) (dlp_hid self).

Definition set_status (s : Status) (self : DLPC350) : DLPC350 :=
  mkDLPC350 (debug self) (dryrun self) (seqN self) (connected self) s
            (exposureTime self) (framePeriod self) (dlp_hid self).

Definition set_exposureTime (v : list Z) (self : DLPC350) : DLPC350 :=
  mkDLPC350 (debug self) (dryrun self) (seqN self) (connected self)
            (status self) (Some v) (framePeriod self) (dlp_hid self).

Definition set_framePeriod (v : list Z) (self : DLPC350) : DLPC350 :=
  mkDLPC350 (debug self) (dryrun self) (seqN self) (connected self)
            (status self) (exposureTime self) (Some v) (dlp_hid self).

Definition set_dlp_hid (h : Hid) (self : DLPC350) : DLPC350 :=
  mkDLPC350 (debug self) (dryrun self) (seqN self) (connected self)
            (status self) (exposureTime self) (framePeriod self) h.

Definition set_ledRed (v : Z) (s : Status) : Status :=
  mkStatus (hardware s) (system s) (main s) (displaymode s) (inputsource s)
           v (ledGreen s) (ledBlue s).

Definition set_ledGreen (v : Z) (s : Status) : Status :=
  mkStatus (hardware s) (system s) (main s) (displaymode s) (inputsource s)
           (ledRed s) v (ledBlue s).

Definition set_ledBlue (v : Z) (s : Status) : Status :=
  mkStatus (hardware s) (system s) (main s) (displaymode s) (inputsource s)
           (ledRed s) (ledGreen s) v.

(** [DLPC350.__init__], for a test device that will replay [script]. *)
Definition new_session (debug dryrun : Z) (script : list (list Z)) : DLPC350 :=
  mkDLPC350 debug dryrun 0x01 0
            (mkStatus 0x00 0x00 0x00 0x00 0x00 0x00 0x00 0x00)
            None None (mkHid [] [] script).

(** ** The method monad *)

Definition M (A : Type) : Type := DLPC350 -> outcome A * DLPC350.

Definition ret {A} (a : A) : M A := fun self => (Ret a, self).

(** Sequencing stops at the first exception; the session keeps every change
    made before it, as a Python object does. *)
Definition bind {A B} (m : M A) (k : A -> M B) : M B :=
  fun self =>
    match m self with
    | (Ret a, self') => k a self'
    | (Raise e, self') => (Raise e, self')
    | (OutOfFuel, self') => (OutOfFuel, self')
    end.

Definition raise {A} (e : exn) : M A := fun self => (Raise e, self).

Definition get_self : M DLPC350 := fun self => (Ret self, self).

Definition modify_self (f : DLPC350 -> DLPC350) : M unit :=
  fun self => (Ret tt, f self).

Declare Scope py_scope.
Delimit Scope py_scope with py.
Notation "x <- m ;; k" := (bind m (fun x => k))
  (at level 61, m at next level, right associativity) : py_scope.
Notation "m ;; k" := (bind m (fun _ => k))
  (at level 61, right associativity) : py_scope.
Open Scope py_scope.

(** ** Python list primitives *)

(** [l[i]] for a non-negative literal index [i]. *)
Definition subscript (l : list Z) (i : nat) : M Z :=
  match nth_error l i with
  | Some x => ret x
  | None => raise IndexError
  end.

(** [l[lo:hi]] for non-negative literal bounds. *)
Definition slice (l : list Z) (lo hi : nat) : list Z :=
  firstn (hi - lo) (skipn lo l).

(** [len(l)] *)
Definition len (l : list Z) : Z := Z.of_nat (length l).

(** ** [fakehid.device], scripted *)

(** [device.write(buff)]: the buffer is accepted as it is. *)
Definition hid_write (buff : list Z) : M Z :=
  fun self =>
    let h := dlp_hid self in
    (Ret 1, set_dlp_hid (mkHid (written h ++ [buff]) (readlog h) (incoming h)) self).

(** [device.read(max_length)]: at most [max_length] bytes of the next scripted
    response; once the script is used up, the zero-filled buffer of
    [fakehid.device.read]. *)
Definition hid_read (max_length : nat) : M (list Z) :=
  fun self =>
    let h := dlp_hid self in
    match incoming h with
    | [] =>
        (Ret (repeat 0 max_length),
         set_dlp_hid (mkHid (written h) (readlog h ++ [max_length]) []) self)
    | d :: rest =>
        (Ret (firstn max_length d),
         set_dlp_hid (mkHid (written h) (readlog h ++ [max_length]) rest) self)
    end.

(** ** Byte packing *)

(** [_int2bytesLSB_]: the four low bytes of [n], least significant first. *)
Definition _int2bytesLSB_ (n : Z) : list Z :=
  rev (map (fun i => Z.land (Z.shiftr n i) 0xff) [24; 16; 8; 0]).

(** [_bytes2intLSB_]: the loop reads [b[0]], [b[1]], [b[2]], [b[3]] in turn. *)
Definition _bytes2intLSB_ (b : list Z) : M Z :=
  fold_left
    (fun (acc : M Z) (i : nat) =>
       r <- acc ;;
       bi <- subscript b i ;;
       ret (Z.lor r (Z.shiftl bi (Z.of_nat i * 8))))
    [0%nat; 1%nat; 2%nat; 3%nat]
    (ret 0x00000000).

(** ** [buildPacket] *)

(** The closing [map(int, ...)] is the identity on a list of integers. *)

Definition buildPacket (cmd2 cmd3 : Z) (data : list Z) (readonly reply seq : Z)
  : M (list Z) :=
  let reportID := 0x00 in
  let flagsByte := Z.lor (Z.lor 0 (Z.shiftl readonly 7)) (Z.shiftl reply 6) in
  sequenceNumber <-
    (if seq =? 0 then ret 0x00
     else
       self <- get_self ;;
       let sequenceNumber := Z.land (seqN self) 0xFF in
       modify_self (set_seqN (seqN self + 1)) ;;
       ret sequenceNumber) ;;
  let packetLengthLSB := 2 + len data in
  let packetLengthMSB := Z.shiftr packetLengthLSB 8 in
  let packetLengthLSB := Z.land packetLengthLSB 0x00FF in
  ret ([reportID; flagsByte; sequenceNumber; packetLengthLSB;
        packetLengthMSB; cmd3; cmd2] ++ data).

(** ** The command set *)

(** [getImageLoadTiming] (CMD2 0x1A, CMD3 0x3A) *)
Definition getImageLoadTiming (startingIndex imageNumber : Z) : M Z :=
  pkt <- buildPacket 0x1A 0x3A [startingIndex; imageNumber] 0 1 0 ;;
  hid_write pkt ;;
  d <- hid_read 8 ;;
  ticks <- _bytes2intLSB_ (slice d 4 7) ;;
  ret (ticks / 18667).

(** [startValidation] (CMD2 0x1A, CMD3 0x1A) *)
Definition startValidation : M Z :=
  pkt <- buildPacket 0x1A 0x1A [0x00] 0 0 0 ;;
  hid_write pkt ;;
  ret 1.

(** [getValidationData] (CMD2 0x1A, CMD3 0x1A) *)
Definition getValidationData : M Z :=
  pkt <- buildPacket 0x1A 0x1A [] 1 1 0 ;;
  hid_write pkt ;;
  d <- hid_read 5 ;;
  subscript d 4.

(** [setPatternTriggerMode] (CMD2 0x1A, CMD3 0x23) *)
Definition setPatternTriggerMode (mode : Z) : M Z :=
  if mode >? 4 then ret (-1)
  else
    pkt <- buildPacket 0x1A 0x23 [mode] 0 0 1 ;;
    hid_write pkt ;;
    ret 1.

(** [source not in [0b00, 0b11]] and [function not in [1, 2, 3]] *)
Definition not_in (x : Z) (l : list Z) : bool :=
  negb (existsb (Z.eqb x) l).

(** [setPatternInputSource] (CMD2 0x1A, CMD3 0x22) *)
Definition setPatternInputSource (source : Z) : M Z :=
  if not_in source [0; 3] then ret (-1)
  else
    pkt <- buildPacket 0x1A 0x22 [source] 0 0 1 ;;
    hid_write pkt ;;
    ret 1.

(** [setPatternExposureTime] (CMD2 0x1A, CMD3 0x29) *)
Definition setPatternExposureTime (exposure longerFramePeriod : Z) : M Z :=
  modify_self (set_exposureTime (_int2bytesLSB_ exposure)) ;;
  let period := if longerFramePeriod =? 1 then exposure + 230 else exposure in
  modify_self (set_framePeriod (_int2bytesLSB_ period)) ;;
  pkt <- buildPacket 0x1A 0x29
           (_int2bytesLSB_ exposure ++ _int2bytesLSB_ period) 0 0 1 ;;
  hid_write pkt ;;
  ret 1.

(** [LUTControl] (CMD2 0x1A, CMD3 0x31) *)
Definition LUTControl (lutEntries repeat nrOfPattern flashImages : Z) : M Z :=
  pkt <- buildPacket 0x1A 0x31
           [Z.land (lutEntries - 1) 0x7F;
            Z.land repeat 0x01;
            nrOfPattern - 1;
            Z.land (flashImages - 1) 0x3F] 0 0 1 ;;
  hid_write pkt ;;
  ret 1.

(** [setLUTOffsetPointer] (CMD2 0x1A, CMD3 0x32) *)
Definition setLUTOffsetPointer (offset : Z) : M Z :=
  pkt <- buildPacket 0x1A 0x32 [Z.land offset 0xFF] 0 0 1 ;;
  hid_write pkt ;;
  ret 1.

(** [openMailbox] (CMD2 0x1A, CMD3 0x33) *)
Definition openMailbox (function : Z) : M Z :=
  if not_in function [1; 2; 3] then ret (-1)
  else
    pkt <- buildPacket 0x1A 0x33 [Z.land function 0x03] 0 0 1 ;;
    hid_write pkt ;;
    ret 1.

(** [closeMailboxes] (CMD2 0x1A, CMD3 0x33) *)
Definition closeMailboxes : M Z :=
  pkt <- buildPacket 0x1A 0x33 [0x00] 0 0 1 ;;
  hid_write pkt ;;
  ret 1.

(** [setFlashImageIndexes] (CMD2 0x1A, CMD3 0x34) *)
Definition setFlashImageIndexes (indexes : list Z) : M Z :=
  pkt <- buildPacket 0x1A 0x34 indexes 0 0 1 ;;
  hid_write pkt ;;
  ret 1.

(** [fillPatternData] (CMD2 0x1A, CMD3 0x34) *)
Definition fillPatternData (data : list Z) : M Z :=
  pkt <- buildPacket 0x1A 0x34 data 0 0 1 ;;
  hid_write pkt ;;
  ret 1.

(** [getLEDCurrent] (CMD2 0x0B, CMD3 0x01).  The three assignments to
    [self.status] happen one after the other, each after its own subscript. *)
Definition getLEDCurrent : M (list Z) :=
  pkt <- buildPacket 0x0B 0x01 [] 1 1 0 ;;
  hid_write pkt ;;
  d <- hid_read 7 ;;
  d4 <- subscript d 4 ;;
  modify_self (fun self => set_status (set_ledRed (255 - d4) (status self)) self) ;;
  d5 <- subscript d 5 ;;
  modify_self (fun self => set_status (set_ledGreen (255 - d5) (status self)) self) ;;
  d6 <- subscript d 6 ;;
  modify_self (fun self => set_status (set_ledBlue (255 - d6) (status self)) self) ;;
  ret (slice d 4 6).

(** ** The LED current guard *)

(** The conversion Python applies to an [int] operand of a float product:
    the nearest binary64 value.  The definition agrees with Python for
    magnitudes below 2^63 and is exact below 2^53; current settings are
    bytes. *)
Definition float_of_int (z : Z) : float :=
  if z <? 0 then PrimFloat.opp (PrimFloat.of_uint63 (Uint63.of_Z (- z)))
  else PrimFloat.of_uint63 (Uint63.of_Z z).

(** The value bound to [totalCurrent] in [checkLedCurrent]. *)
Definition totalCurrent (r g b : Z) : float :=
  ((float_of_int r * 0.0069) + (float_of_int g * 0.0071)
   + (float_of_int b * 0.0063) + 0.9611)%float.

(** [checkLedCurrent]; [lcrafterChk] is tested for truth. *)
Definition checkLedCurrent (r g b lcrafterChk : Z) : M Z :=
  if (r >? 255) || (g >? 255) || (b >? 255) then ret 0
  else
    if negb (lcrafterChk =? 0) && PrimFloat.ltb 4.2%float (totalCurrent r g b)
    then ret 0
    else ret 1.

(** [setLEDCurrent] (CMD2 0x0B, CMD3 0x01).  The final [return 1] is outside
    the [if]. *)
Definition setLEDCurrent (r g b : Z) : M Z :=
  ok <- checkLedCurrent r g b 1 ;;
  (if ok =? 1 then
     let currents := [255 - r; 255 - g; 255 - b] in
     pkt <- buildPacket 0x0B 0x01 currents 0 0 0 ;;
     hid_write pkt ;;
     ret tt
   else ret tt) ;;
  ret 1.

(** ** Higher-level commands *)

(** The [while ((d >> 7) == 1)] loop of [validateSequence], unrolled at most
    [fuel] times. *)
Fixpoint validateSequence_loop (fuel : nat) (d : Z) : M Z :=
  if Z.shiftr d 7 =? 1 then
    match fuel with
    | O => fun self => (OutOfFuel, self)
    | S fuel' =>
        d' <- getValidationData ;;
        validateSequence_loop fuel' d'
    end
  else ret d.

(** [validateSequence]; the report printed after the loop is left out. *)
Definition validateSequence (fuel : nat) : M Z :=
  startValidation ;;
  d <- getValidationData ;;
  validateSequence_loop fuel d.

(** [sendPatternSequence]; Python's [None] result is [tt]. *)
Definition sendPatternSequence (sequence flashIndexes : list Z)
           (displayTime triggerMode repeat : Z) : M unit :=
  let nrOfLUTEntries := len sequence / 3 in
  let nrOfFlashImages := len flashIndexes in
  if negb (len sequence mod 3 =? 0) || (nrOfLUTEntries =? 0) then
    raise (SettingsError "Invalid pattern sequence!")
  else if (nrOfFlashImages =? 0) || (nrOfFlashImages >? nrOfLUTEntries) then
    raise (SettingsError "Invalid number of Flash images!")
  else
    setPatternInputSource 3 ;;
    LUTControl nrOfLUTEntries repeat nrOfLUTEntries nrOfFlashImages ;;
    setPatternExposureTime displayTime 0 ;;
    setPatternTriggerMode triggerMode ;;
    openMailbox 2 ;;
    setLUTOffsetPointer 0 ;;
    fillPatternData sequence ;;
    closeMailboxes ;;
    openMailbox 1 ;;
    setLUTOffsetPointer 0 ;;
    setFlashImageIndexes flashIndexes ;;
    closeMailboxes ;;
    ret tt.

(** ** The remaining commands *)

Definition set_hardware (v : Z) (s : Status) : Status :=
  mkStatus v (system s) (main s) (displaymode s) (inputsource s)
           (ledRed s) (ledGreen s) (ledBlue s).

Definition set_system (v : Z) (s : Status) : Status :=
  mkStatus (hardware s) v (main s) (displaymode s) (inputsource s)
           (ledRed s) (ledGreen s) (ledBlue s).

Definition set_main (v : Z) (s : Status) : Status :=
  mkStatus (hardware s) (system s) v (displaymode s) (inputsource s)
           (ledRed s) (ledGreen s) (ledBlue s).

Definition set_displaymode (v : Z) (s : Status) : Status :=
  mkStatus (hardware s) (system s) (main s) v (inputsource s)
           (ledRed s) (ledGreen s) (ledBlue s).

Definition set_inputsource (v : Z) (s : Status) : Status :=
  mkStatus (hardware s) (system s) (main s) (displaymode s) v
           (ledRed s) (ledGreen s) (ledBlue s).

(** [getHardwareStatus] (CMD2 0x1A, CMD3 0x0A) *)
Definition getHardwareStatus : M Z :=
  pkt <- buildPacket 0x1A 0x0A [] 1 1 0 ;;
  hid_write pkt ;;
  d <- hid_read 5 ;;
  subscript d 4.

(** [getSystemStatus] (CMD2 0x1A, CMD3 0x0B) *)
Definition getSystemStatus : M Z :=
  pkt <- buildPacket 0x1A 0x0B [] 1 1 0 ;;
  hid_write pkt ;;
  d <- hid_read 5 ;;
  subscript d 4.

(** [getMainStatus] (CMD2 0x1A, CMD3 0x0C) *)
Definition getMainStatus : M Z :=
  pkt <- buildPacket 0x1A 0x0C [] 1 1 0 ;;
  hid_write pkt ;;
  d <- hid_read 5 ;;
  subscript d 4.

(** [softwareReset] (CMD2 0x08, CMD3 0x02) *)
Definition softwareReset : M Z :=
  pkt <- buildPacket 0x08 0x02 [0x00] 0 0 0 ;;
  hid_write pkt ;;
  ret 1.

(** [enterStandby] (CMD2 0x02, CMD3 0x00) *)
Definition enterStandby : M Z :=
  pkt <- buildPacket 0x02 0x00 [0x01] 0 0 0 ;;
  hid_write pkt ;;
  ret 1.

(** [exitStandby] (CMD2 0x02, CMD3 0x00) *)
Definition exitStandby : M Z :=
  pkt <- buildPacket 0x02 0x00 [0x00] 0 0 0 ;;
  hid_write pkt ;;
  ret 1.

(** [forceBufferSwap] (CMD2 0x1A, CMD3 0x26) *)
Definition forceBufferSwap : M Z :=
  pkt <- buildPacket 0x1A 0x26 [0x01] 0 0 0 ;;
  hid_write pkt ;;
  ret 1.

(** [disableBufferSwapping] (CMD2 0x10, CMD3 0x0A) *)
Definition disableBufferSwapping : M Z :=
  pkt <- buildPacket 0x10 0x0A [0x01] 0 0 0 ;;
  hid_write pkt ;;
  ret 1.

(** [enableBufferSwapping] (CMD2 0x10, CMD3 0x0A) *)
Definition enableBufferSwapping : M Z :=
  pkt <- buildPacket 0x10 0x0A [0x00] 0 0 0 ;;
  hid_write pkt ;;
  ret 1.

(** [disableBufferWrite] (CMD2 0x1A, CMD3 0x27) *)
Definition disableBufferWrite : M Z :=
  pkt <- buildPacket 0x1A 0x27 [0x01] 0 0 0 ;;
  hid_write pkt ;;
  ret 1.

(** [enableBufferWrite] (CMD2 0x1A, CMD3 0x27) *)
Definition enableBufferWrite : M Z :=
  pkt <- buildPacket 0x1A 0x27 [0x00] 0 0 0 ;;
  hid_write pkt ;;
  ret 1.

(** [getCurrentBufferPointer] (CMD2 0x1A, CMD3 0x28) *)
Definition getCurrentBufferPointer : M Z :=
  pkt <- buildPacket 0x1A 0x28 [] 1 1 0 ;;
  hid_write pkt ;;
  d <- hid_read 5 ;;
  d4 <- subscript d 4 ;;
  ret (Z.land d4 0x01).

(** [getInputSource] (CMD2 0x1A, CMD3 0x00); its [source] parameter is not
    used. *)
Definition getInputSource : M Z :=
  pkt <- buildPacket 0x1A 0x00 [] 1 1 0 ;;
  hid_write pkt ;;
  d <- hid_read 5 ;;
  d4 <- subscript d 4 ;;
  modify_self (fun self =>
    set_status (set_inputsource (Z.land d4 0x03) (status self)) self) ;;
  ret (Z.land d4 0x03).

(** [setInputSource] (CMD2 0x1A, CMD3 0x00) *)
Definition setInputSource (source : Z) : M Z :=
  pkt <- buildPacket 0x1A 0x00 [Z.land source 0x03] 0 0 0 ;;
  hid_write pkt ;;
  ret 1.

(** [loadImage] (CMD2 0x1A, CMD3 0x39) *)
Definition loadImage (index : Z) : M Z :=
  pkt <- buildPacket 0x1A 0x39 [Z.land index 0xFF] 0 0 0 ;;
  hid_write pkt ;;
  ret 1.

(** [getDisplayMode] (CMD2 0x1A, CMD3 0x1B) *)
Definition getDisplayMode : M Z :=
  pkt <- buildPacket 0x1A 0x1B [] 1 1 0 ;;
  hid_write pkt ;;
  d <- hid_read 5 ;;
  d4 <- subscript d 4 ;;
  modify_self (fun self =>
    set_status (set_displaymode d4 (status self)) self) ;;
  ret d4.

(** [setDisplayMode] (CMD2 0x1A, CMD3 0x1B) *)
Definition setDisplayMode (mode : Z) : M Z :=
  pkt <- buildPacket 0x1A 0x1B [Z.land mode 0x01] 0 0 0 ;;
  hid_write pkt ;;
  ret 1.

(** [setTriggerOut1Control] (CMD2 0x1A, CMD3 0x1D); [invert_polarity] is
    tested for truth. *)
Definition setTriggerOut1Control (invert_polarity : bool)
           (rising_delay falling_delay : Z) : M Z :=
  let inv := if invert_polarity then 0x02 else 0x00 in
  pkt <- buildPacket 0x1A 0x1D [inv; rising_delay; falling_delay] 0 0 1 ;;
  hid_write pkt ;;
  ret 1.

(** [startPatternSequence] (CMD2 0x1A, CMD3 0x24) *)
Definition startPatternSequence : M Z :=
  pkt <- buildPacket 0x1A 0x24 [0x02] 0 0 0 ;;
  hid_write pkt ;;
  ret 1.

(** [pausePatternSequence] (CMD2 0x1A, CMD3 0x24) *)
Definition pausePatternSequence : M Z :=
  pkt <- buildPacket 0x1A 0x24 [0x01] 0 0 0 ;;
  hid_write pkt ;;
  ret 1.

(** [stopPatternSequence] (CMD2 0x1A, CMD3 0x24) *)
Definition stopPatternSequence : M Z :=
  pkt <- buildPacket 0x1A 0x24 [0x00] 0 0 0 ;;
  hid_write pkt ;;
  ret 1.

(** [getLEDOutputEnable] (CMD2 0x1A, CMD3 0x07) *)
Definition getLEDOutputEnable : M Z :=
  pkt <- buildPacket 0x1A 0x07 [] 1 1 0 ;;
  hid_write pkt ;;
  d <- hid_read 5 ;;
  subscript d 4.

(** [getLEDPWMPolarity] (CMD2 0x1A, CMD3 0x05) *)
Definition getLEDPWMPolarity : M Z :=
  pkt <- buildPacket 0x1A 0x05 [] 1 1 0 ;;
  hid_write pkt ;;
  d <- hid_read 5 ;;
  subscript d 4.

(** The byte [cfg] that [configureGPIO] packs. *)
Definition gpio_cfg (state buffertype direction disable : Z) : Z :=
  Z.lor (Z.lor (Z.lor (Z.lor 0x00 (Z.shiftl (Z.land state 0x01) 3))
                      (Z.shiftl (Z.land buffertype 0x01) 4))
               (Z.shiftl (Z.land direction 0x01) 5))
        (Z.shiftl (Z.land disable 0x01) 7).

(** [configureGPIO] (CMD2 0x1A, CMD3 0x38) *)
Definition configureGPIO (pin state buffertype direction disable : Z) : M Z :=
  let cfg := gpio_cfg state buffertype direction disable in
  let config := [Z.land pin 0xFF; cfg] in
  pkt <- buildPacket 0x1A 0x38 config 0 0 0 ;;
  hid_write pkt ;;
  ret 1.

(** [readGPIO] (CMD2 0x1A, CMD3 0x38) *)
Definition readGPIO (pin : Z) : M Z :=
  let config := [Z.land pin 0xFF] in
  pkt <- buildPacket 0x1A 0x38 config 1 1 0 ;;
  hid_write pkt ;;
  d <- hid_read 6 ;;
  subscript d 5.

(** [getStatus]; the report printed under [debug] is left out. *)
Definition getStatus : M Z :=
  hw <- getHardwareStatus ;;
  modify_self (fun self => set_status (set_hardware hw (status self)) self) ;;
  sy <- getSystemStatus ;;
  modify_self (fun self => set_status (set_system sy (status self)) self) ;;
  mn <- getMainStatus ;;
  modify_self (fun self => set_status (set_main mn (status self)) self) ;;
  self <- get_self ;;
  if (hardware (status self) =? 0x01) && (system (status self) =? 0x01)
  then ret 1
  else ret 0.

(** The [while (not status and k < timeout)] loop of [pollForStatusOK],
    unrolled at most [fuel] times. *)
Fixpoint pollForStatusOK_loop (fuel : nat) (timeout status k : Z) : M Z :=
  if (status =? 0) && (k <? timeout) then
    match fuel with
    | O => fun self => (OutOfFuel, self)
    | S fuel' =>
        status' <- getStatus ;;
        pollForStatusOK_loop fuel' timeout status' (k + 1)
    end
  else ret status.

(** [pollForStatusOK] *)
Definition pollForStatusOK (fuel : nat) (timeout : Z) : M Z :=
  pollForStatusOK_loop fuel timeout 0 0.

(** ** Reading a packet back *)

(** The fields of a packet as the wire layout of the specification names
    them (the source has no decoder of its own): byte 0 report id, byte 1
    flags, byte 2 sequence number, bytes 3-4 length, byte 5 cmd3, byte 6 cmd2,
    then the payload, whose size is the length field minus 2. *)
Record Fields : Type := mkFields {
  f_readonly : bool;
  f_reply : bool;
  f_sequence : Z;
  f_cmd2 : Z;
  f_cmd3 : Z;
  f_payload : list Z
}.

Definition wire_decode (pkt : list Z) : option Fields :=
  match pkt with
  | reportID :: flags :: sq :: lsb :: msb :: cmd3 :: cmd2 :: rest =>
      if (reportID =? 0) && (len rest >=? lsb + 256 * msb - 2) then
        Some (mkFields (Z.testbit flags 7) (Z.testbit flags 6) sq cmd2 cmd3
                       (firstn (Z.to_nat (lsb + 256 * msb - 2)) rest))
      else None
  | _ => None
  end.

(** The sequence-number byte of a packet. *)
Definition sequence_byte (pkt : list Z) : Z := nth 2 pkt 0.

(** A run of [buildPacket] calls, one per argument tuple, in order. *)
Record BuildArgs : Type := mkBuildArgs {
  a_cmd2 : Z;
  a_cmd3 : Z;
  a_data : list Z;
  a_readonly : Z;
  a_reply : Z;
  a_seq : Z
}.

Fixpoint buildPackets (calls : list BuildArgs) : M (list (list Z)) :=
  match calls with
  | [] => ret []
  | c :: calls' =>
      pkt <- buildPacket (a_cmd2 c) (a_cmd3 c) (a_data c)
                         (a_readonly c) (a_reply c) (a_seq c) ;;
      pkts <- buildPackets calls' ;;
      ret (pkt :: pkts)
  end.

(** The session after one more buffer went out on the transport. *)
Definition after_write (buff : list Z) (self : DLPC350) : DLPC350 :=
  let h := dlp_hid self in
  set_dlp_hid (mkHid (written h ++ [buff]) (readlog h) (incoming h)) self.

(** The wire image of a command sent with sequence tracking, neither
    read-only nor expecting a reply, when the session counter is [s]. *)
Definition tracked_frame (s cmd3 : Z) (data : list Z) : list Z :=
  [0; 0; s mod 256; (len data + 2) mod 256; (len data + 2) / 256; cmd3; 0x1A]
    ++ data.

(** ** The LED guard on machine integers *)

(** [totalCurrent] on 63-bit integers, used to run the guard on every triple
    of bytes. *)
Definition totalCurrent63 (r g b : int) : float :=
  ((PrimFloat.of_uint63 r * 0.0069) + (PrimFloat.of_uint63 g * 0.0071)
   + (PrimFloat.of_uint63 b * 0.0063) + 0.9611)%float.

(** The float comparison of the guard against the same comparison in exact
    arithmetic, scaled by 10000: 69r + 71g + 63b + 9611 > 42000. *)
Definition guard_agrees (r g b : int) : bool :=
  Bool.eqb (PrimFloat.ltb 4.2%float (totalCurrent63 r g b))
           (Uint63.ltb 32389 (69 * r + 71 * g + 63 * b))%uint63.

Fixpoint forall_from (n : nat) (i : int) (p : int -> bool) : bool :=
  match n with
  | O => true
  | S n' => p i && forall_from n' (i + 1)%uint63 p
  end.

(** ** Expected transport traffic *)

(** The buffer [startValidation] writes. *)
Definition start_packet : list Z := [0; 0; 0; 3; 0; 0x1A; 0x1A; 0].

(** The buffer [getValidationData] writes. *)
Definition poll_packet : list Z := [0; 0xC0; 0; 2; 0; 0x1A; 0x1A].

(** A response that keeps the validation loop going: its byte at offset 4 is
    a byte with bit 7 set. *)
Definition busy_response (d : list Z) : Prop :=
  exists v, nth_error d 4 = Some v /\ 0 <= v < 256 /\ Z.testbit v 7 = true.

(** The session after [getValidationData] consumed one response. *)
Definition after_poll (rest : list (list Z)) (self : DLPC350) : DLPC350 :=
  let h := dlp_hid self in
  set_dlp_hid (mkHid (written h ++ [poll_packet]) (readlog h ++ [5%nat]) rest)
              self.

(** ** Pattern-sequence shapes and traffic *)

(** The shape test at the head of [sendPatternSequence], read as a
    proposition: the byte count is a nonzero multiple of 3 and the number of
    flash indexes lies between 1 and the number of LUT entries. *)
Definition well_shaped (sequence flashIndexes : list Z) : Prop :=
  len sequence mod 3 = 0 /\ len sequence <> 0 /\
  1 <= len flashIndexes <= len sequence / 3.

(** The twelve buffers of a complete upload, for a session whose counter is
    [s] when the upload starts. *)
Definition upload_frames (s : Z) (sequence flashIndexes : list Z)
           (displayTime triggerMode repeat : Z) : list (list Z) :=
  let n := len sequence / 3 in
  [ tracked_frame s 0x22 [3];
    tracked_frame (s + 1) 0x31
      [Z.land (n - 1) 0x7F; Z.land repeat 0x01; n - 1;
       Z.land (len flashIndexes - 1) 0x3F];
    tracked_frame (s + 2) 0x29
      (_int2bytesLSB_ displayTime ++ _int2bytesLSB_ displayTime);
    tracked_frame (s + 3) 0x23 [triggerMode];
    tracked_frame (s + 4) 0x33 [2];
    tracked_frame (s + 5) 0x32 [0];
    tracked_frame (s + 6) 0x34 sequence;
    tracked_frame (s + 7) 0x33 [0];
    tracked_frame (s + 8) 0x33 [1];
    tracked_frame (s + 9) 0x32 [0];
    tracked_frame (s + 10) 0x34 flashIndexes;
    tracked_frame (s + 11) 0x33 [0] ].

(** What the claim of a twelve-command upload says of one call. *)
Definition uploads_twelve (sequence flashIndexes : list Z)
           (displayTime triggerMode repeat : Z) (self : DLPC350) : Prop :=
  let '(r, self') :=
    sendPatternSequence sequence flashIndexes displayTime triggerMode repeat self
  in
  r = Ret tt /\
  written (dlp_hid self')
  = written (dlp_hid self)
      ++ upload_frames (seqN self) sequence flashIndexes displayTime
                       triggerMode repeat /\
  readlog (dlp_hid self') = readlog (dlp_hid self) /\
  incoming (dlp_hid self') = incoming (dlp_hid self) /\
  seqN self' = seqN self + 12.

(** ** Bytes *)

(** A value a HID report can carry. *)
Definition is_byte (z : Z) : Prop := 0 <= z < 256.

(** ** Command families *)

(** The commands sent without sequence tracking that expect no reply, with
    their arguments. *)
Inductive Oneway : Type :=
| SoftwareReset
| EnterStandby
| ExitStandby
| ForceBufferSwap
| DisableBufferSwapping
| EnableBufferSwapping
| DisableBufferWrite
| EnableBufferWrite
| SetInputSource (source : Z)
| LoadImage (index : Z)
| SetDisplayMode (mode : Z)
| StartValidation
| StartPatternSequence
| PausePatternSequence
| StopPatternSequence
| ConfigureGPIO (pin state buffertype direction disable : Z).

Definition oneway (c : Oneway) : M Z :=
  match c with
  | SoftwareReset => softwareReset
  | EnterStandby => enterStandby
  | ExitStandby => exitStandby
  | ForceBufferSwap => forceBufferSwap
  | DisableBufferSwapping => disableBufferSwapping
  | EnableBufferSwapping => enableBufferSwapping
  | DisableBufferWrite => disableBufferWrite
  | EnableBufferWrite => enableBufferWrite
  | SetInputSource source => setInputSource source
  | LoadImage index => loadImage index
  | SetDisplayMode mode => setDisplayMode mode
  | StartValidation => startValidation
  | StartPatternSequence => startPatternSequence
  | PausePatternSequence => pausePatternSequence
  | StopPatternSequence => stopPatternSequence
  | ConfigureGPIO pin state buffertype direction disable =>
      configureGPIO pin state buffertype direction disable
  end.

(** The commands that ask for a reply and return one byte of it. *)
Inductive Query : Type :=
| GetHardwareStatus
| GetSystemStatus
| GetMainStatus
| GetCurrentBufferPointer
| GetInputSource
| GetDisplayMode
| GetValidationData
| GetLEDOutputEnable
| GetLEDPWMPolarity
| ReadGPIO (pin : Z).

Definition query (q : Query) : M Z :=
  match q with
  | GetHardwareStatus => getHardwareStatus
  | GetSystemStatus => getSystemStatus
  | GetMainStatus => getMainStatus
  | GetCurrentBufferPointer => getCurrentBufferPointer
  | GetInputSource => getInputSource
  | GetDisplayMode => getDisplayMode
  | GetValidationData => getValidationData
  | GetLEDOutputEnable => getLEDOutputEnable
  | GetLEDPWMPolarity => getLEDPWMPolarity
  | ReadGPIO pin => readGPIO pin
  end.

(** The offset of the reply byte a query returns. *)
Definition reply_offset (q : Query) : nat :=
  match q with
  | ReadGPIO _ => 5%nat
  | _ => 4%nat
  end.

(** The session after a query wrote [pkt] and read, with [max_length] [n],
    the response at the head of the script. *)
Definition after_query (pkt : list Z) (n : nat) (rest : list (list Z))
           (self : DLPC350) : DLPC350 :=
  let h := dlp_hid self in
  set_dlp_hid (mkHid (written h ++ [pkt]) (readlog h ++ [n]) rest) self.

(** The commands sent with sequence tracking, with their arguments. *)
Inductive Tracked : Type :=
| SetPatternTriggerMode (mode : Z)
| SetTriggerOut1Control (invert_polarity : bool)
                        (rising_delay falling_delay : Z)
| SetPatternInputSource (source : Z)
| SetPatternExposureTime (exposure longerFramePeriod : Z)
| LutControl (lutEntries repeat nrOfPattern flashImages : Z)
| SetLUTOffsetPointer (offset : Z)
| OpenMailbox (function : Z)
| CloseMailboxes
| SetFlashImageIndexes (indexes : list Z)
| FillPatternData (data : list Z).

Definition tracked (t : Tracked) : M Z :=
  match t with
  | SetPatternTriggerMode mode => setPatternTriggerMode mode
  | SetTriggerOut1Control invert_polarity rising_delay falling_delay =>
      setTriggerOut1Control invert_polarity rising_delay falling_delay
  | SetPatternInputSource source => setPatternInputSource source
  | SetPatternExposureTime exposure longerFramePeriod =>
      setPatternExposureTime exposure longerFramePeriod
  | LutControl lutEntries repeat nrOfPattern flashImages =>
      LUTControl lutEntries repeat nrOfPattern flashImages
  | SetLUTOffsetPointer offset => setLUTOffsetPointer offset
  | OpenMailbox function => openMailbox function
  | CloseMailboxes => closeMailboxes
  | SetFlashImageIndexes indexes => setFlashImageIndexes indexes
  | FillPatternData data => fillPatternData data
  end.

(** Whether a tracked command passes the test at its head, if it has one. *)
Definition acceptedb (t : Tracked) : bool :=
  match t with
  | SetPatternTriggerMode mode => negb (mode >? 4)
  | SetPatternInputSource source => negb (not_in source [0; 3])
  | OpenMailbox function => negb (not_in function [1; 2; 3])
  | _ => true
  end.

(** A command of either family, and a script of them run in order with the
    results dropped, as [sendPatternSequence] runs its twelve. *)
Inductive Command : Type :=
| Plain (c : Oneway)
| Numbered (t : Tracked).

Definition command (c : Command) : M Z :=
  match c with
  | Plain c => oneway c
  | Numbered t => tracked t
  end.

Fixpoint run_commands (cs : list Command) : M unit :=
  match cs with
  | [] => ret tt
  | c :: cs' => command c ;; run_commands cs'
  end.

(** Whether a command takes a sequence number. *)
Definition numbered (c : Command) : bool :=
  match c with
  | Plain _ => false
  | Numbered t => acceptedb t
  end.

(** Whether a command writes a packet. *)
Definition transmits (c : Command) : bool :=
  match c with
  | Plain _ => true
  | Numbered t => acceptedb t
  end.

(** The sequence bytes expected on the transport for a script started at
    counter value [s]. *)
Fixpoint sequence_bytes (s : Z) (cs : list Command) : list Z :=
  match cs with
  | [] => []
  | Plain _ :: cs' => 0 :: sequence_bytes s cs'
  | Numbered t :: cs' =>
      if acceptedb t then (s mod 256) :: sequence_bytes (s + 1) cs'
      else sequence_bytes s cs'
  end.

(** ** Status polling traffic *)

(** The three packets one [getStatus] round writes. *)
Definition status_packets : list (list Z) :=
  [[0; 0xC0; 0; 2; 0; 0x0A; 0x1A];
   [0; 0xC0; 0; 2; 0; 0x0B; 0x1A];
   [0; 0xC0; 0; 2; 0; 0x0C; 0x1A]].

(** The session after a [getStatus] round that read the bytes [h], [s] and
    [m]. *)
Definition after_status (h s m : Z) (rest : list (list Z)) (self : DLPC350)
  : DLPC350 :=
  let hid := dlp_hid self in
  set_dlp_hid
    (mkHid (written hid ++ status_packets)
           (readlog hid ++ [5%nat; 5%nat; 5%nat]) rest)
    (set_status (set_main m (set_system s (set_hardware h (status self))))
                self).

(** The responses to one [getStatus] round: hardware, system, main. *)
Definition status_round (r : list Z * list Z * list Z) : list (list Z) :=
  let '(a, b, c) := r in [a; b; c].

(** The status bytes a round of responses carries at offset 4. *)
Definition round_bytes (r : list Z * list Z * list Z) (h s m : Z) : Prop :=
  let '(a, b, c) := r in
  nth_error a 4 = Some h /\ nth_error b 4 = Some s /\ nth_error c 4 = Some m.

(** A round after which [getStatus] answers 1, and one after which it
    answers 0. *)
Definition nominal_round (r : list Z * list Z * list Z) : Prop :=
  exists m, round_bytes r 1 1 m.

Definition faulty_round (r : list Z * list Z * list Z) : Prop :=
  exists h s m, round_bytes r h s m /\ (h <> 1 \/ s <> 1).

(** The number of reads a session has made. *)
Definition reads (self : DLPC350) : nat := length (readlog (dlp_hid self)).

(** ** Concrete runs *)

Example buildPacket_default :
  buildPacket 0x1A 0x0A [] 1 1 0 (new_session 0 1 [])
  = (Ret [0; 0xC0; 0; 2; 0; 0x0A; 0x1A], new_session 0 1 []).
Proof. reflexivity. Qed.

Example buildPacket_tracked :
  fst (buildPacket 0x1A 0x23 [1] 0 0 1 (new_session 0 1 []))
  = Ret [0; 0; 1; 3; 0; 0x23; 0x1A; 1].
Proof. reflexivity. Qed.

Example sendPatternSequence_default_run :
  let '(r, self) := sendPatternSequence [0x00; 0x21; 0x06] [0x08] 100000 1 0
                                        (new_session 0 1 []) in
  r = Ret tt /\ seqN self = 13 /\ readlog (dlp_hid self) = [] /\
  written (dlp_hid self) =
    [[0; 0; 1; 3; 0; 0x22; 0x1A; 3];
     [0; 0; 2; 6; 0; 0x31; 0x1A; 0; 0; 0; 0];
     [0; 0; 3; 10; 0; 0x29; 0x1A; 0xA0; 0x86; 0x01; 0; 0xA0; 0x86; 0x01; 0];
     [0; 0; 4; 3; 0; 0x23; 0x1A; 1];
     [0; 0; 5; 3; 0; 0x33; 0x1A; 2];
     [0; 0; 6; 3; 0; 0x32; 0x1A; 0];
     [0; 0; 7; 5; 0; 0x34; 0x1A; 0x00; 0x21; 0x06];
     [0; 0; 8; 3; 0; 0x33; 0x1A; 0];
     [0; 0; 9; 3; 0; 0x33; 0x1A; 1];
     [0; 0; 10; 3; 0; 0x32; 0x1A; 0];
     [0; 0; 11; 3; 0; 0x34; 0x1A; 0x08];
     [0; 0; 12; 3; 0; 0x33; 0x1A; 0]].
Proof. vm_compute. repeat split. Qed.

Example getImageLoadTiming_run :
  fst (getImageLoadTiming 0 1 (new_session 0 1 [[0; 0; 0; 0; 0x00; 0x49; 0x02; 0]]))
  = Raise IndexError.
Proof. reflexivity. Qed.

Example checkLedCurrent_full :
  fst (checkLedCurrent 255 255 255 1 (new_session 0 1 [])) = Ret 0.
Proof. reflexivity. Qed.

Example validateSequence_run :
  fst (validateSequence 5 (new_session 0 1
         [[0; 0; 0; 0; 0x81]; [0; 0; 0; 0; 0x81]; [0; 0; 0; 0; 0x00]]))
  = Ret 0.
Proof. reflexivity. Qed.

(** ** Bit-level facts *)

(** Integer operations stay folded under [simpl]; only tests on literals
    compute. *)
#[local] Arguments Z.add : simpl never.
#[local] Arguments Z.sub : simpl never.
#[local] Arguments Z.mul : simpl never.
#[local] Arguments Z.div : simpl never.
#[local] Arguments Z.modulo : simpl never.
#[local] Arguments Z.land : simpl never.
#[local] Arguments Z.lor : simpl never.
#[local] Arguments Z.shiftl : simpl never.
#[local] Arguments Z.shiftr : simpl never.
#[local] Arguments Z.testbit : simpl never.
#[local] Arguments Z.of_nat : simpl never.

Lemma land_255 (n : Z) : Z.land n 0xFF = n mod 256.
Proof. change 0xFF with (Z.ones 8). rewrite Z.land_ones by lia. reflexivity. Qed.

Lemma shiftr_8 (n : Z) : Z.shiftr n 8 = n / 256.
Proof. rewrite Z.shiftr_div_pow2 by lia. reflexivity. Qed.

Lemma length_split (n : Z) : n mod 256 + 256 * (n / 256) = n.
Proof. pose proof (Z.div_mod n 256). lia. Qed.

Lemma shiftr_7_byte (d : Z) :
  0 <= d < 256 -> (Z.shiftr d 7 =? 1) = Z.testbit d 7.
Proof.
  intros Hd. rewrite Z.testbit_odd.
  rewrite Z.shiftr_div_pow2 by lia. change (2 ^ 7) with 128.
  assert (H0 : 0 <= d / 128 < 2)
    by (split; [apply Z.div_pos | apply Z.div_lt_upper_bound]; lia).
  assert (Hc : d / 128 = 0 \/ d / 128 = 1) by lia.
  destruct Hc as [-> | ->]; reflexivity.
Qed.

Lemma firstn_len (l : list Z) : firstn (Z.to_nat (len l)) l = l.
Proof. unfold len. rewrite Nat2Z.id. apply firstn_all. Qed.

(** ** The packet codec *)

Lemma buildPacket_untracked cmd2 cmd3 data readonly reply self :
  buildPacket cmd2 cmd3 data readonly reply 0 self
  = (Ret ([0; Z.lor (Z.lor 0 (Z.shiftl readonly 7)) (Z.shiftl reply 6); 0;
           (len data + 2) mod 256; (len data + 2) / 256; cmd3; cmd2] ++ data),
     self).
Proof.
  unfold buildPacket, bind, ret. simpl.
  rewrite land_255, shiftr_8, (Z.add_comm 2). reflexivity.
Qed.

Lemma buildPacket_tracked_eq cmd2 cmd3 data readonly reply seq self :
  seq <> 0 ->
  buildPacket cmd2 cmd3 data readonly reply seq self
  = (Ret ([0; Z.lor (Z.lor 0 (Z.shiftl readonly 7)) (Z.shiftl reply 6);
           seqN self mod 256;
           (len data + 2) mod 256; (len data + 2) / 256; cmd3; cmd2] ++ data),
     set_seqN (seqN self + 1) self).
Proof.
  intros Hseq. unfold buildPacket, bind, ret, get_self, modify_self.
  destruct (Z.eqb_spec seq 0) as [E | _]; [contradiction |]. simpl.
  rewrite !land_255, shiftr_8, (Z.add_comm 2). reflexivity.
Qed.

(** C5.  For flag values 0 or 1, [buildPacket] returns the packet
    [0; flags; sequence; lsb; msb; cmd3; cmd2] followed by the payload, where
    bit 7 of [flags] is [readonly] and bit 6 is [reply] (and no other bit is
    set), [lsb] and [msb] are the little-endian split of the payload length
    plus 2, and reading the packet back by the wire layout recovers cmd2,
    cmd3, the payload and both flags. *)
Theorem buildPacket_wire_layout :
  forall cmd2 cmd3 data readonly reply seq self,
    (readonly = 0 \/ readonly = 1) ->
    (reply = 0 \/ reply = 1) ->
    exists flags sq lsb msb self',
      buildPacket cmd2 cmd3 data readonly reply seq self
      = (Ret ([0; flags; sq; lsb; msb; cmd3; cmd2] ++ data), self') /\
      Z.testbit flags 7 = (readonly =? 1) /\
      Z.testbit flags 6 = (reply =? 1) /\
      flags = 128 * readonly + 64 * reply /\
      0 <= lsb < 256 /\
      lsb + 256 * msb = len data + 2 /\
      wire_decode ([0; flags; sq; lsb; msb; cmd3; cmd2] ++ data)
      = Some (mkFields (readonly =? 1) (reply =? 1) sq cmd2 cmd3 data).
Proof.
  intros cmd2 cmd3 data readonly reply seq self Hro Hre.
  assert (Hflags :
    let flags := Z.lor (Z.lor 0 (Z.shiftl readonly 7)) (Z.shiftl reply 6) in
    Z.testbit flags 7 = (readonly =? 1) /\ Z.testbit flags 6 = (reply =? 1) /\
    flags = 128 * readonly + 64 * reply).
  { destruct Hro as [-> | ->], Hre as [-> | ->]; cbv; auto. }
  cbv zeta in Hflags. destruct Hflags as (H7 & H6 & Hval).
  pose proof (Z.mod_pos_bound (len data + 2) 256 ltac:(lia)) as Hlsb.
  pose proof (length_split (len data + 2)) as Hsplit.
  assert (Hdec : forall sq,
    wire_decode ([0; Z.lor (Z.lor 0 (Z.shiftl readonly 7)) (Z.shiftl reply 6);
                  sq; (len data + 2) mod 256; (len data + 2) / 256; cmd3; cmd2]
                 ++ data)
    = Some (mkFields (readonly =? 1) (reply =? 1) sq cmd2 cmd3 data)).
  { intros sq. cbn [wire_decode app]. rewrite Hsplit.
    replace (len data + 2 - 2) with (len data) by lia.
    rewrite firstn_len, H7, H6.
    replace (len data >=? len data) with true
      by (symmetry; rewrite Z.geb_leb; apply Z.leb_refl).
    reflexivity. }
  destruct (Z.eq_dec seq 0) as [-> | Hseq].
  - rewrite buildPacket_untracked. do 5 eexists. repeat split; eauto; lia.
  - rewrite buildPacket_tracked_eq by assumption.
    do 5 eexists. repeat split; eauto; lia.
Qed.

Lemma buildPacket_wire_layout_witness :
  exists flags sq lsb msb self',
    buildPacket 0x1A 0x3A [0; 1] 0 1 1 (new_session 0 1 [])
    = (Ret ([0; flags; sq; lsb; msb; 0x3A; 0x1A] ++ [0; 1]), self') /\
    Z.testbit flags 7 = (0 =? 1) /\
    Z.testbit flags 6 = (1 =? 1) /\
    flags = 128 * 0 + 64 * 1 /\
    0 <= lsb < 256 /\
    lsb + 256 * msb = len [0; 1] + 2 /\
    wire_decode ([0; flags; sq; lsb; msb; 0x3A; 0x1A] ++ [0; 1])
    = Some (mkFields (0 =? 1) (1 =? 1) sq 0x1A 0x3A [0; 1]).
Proof.
  apply (buildPacket_wire_layout 0x1A 0x3A [0; 1] 0 1 1 (new_session 0 1 []));
    [left | right]; reflexivity.
Defined.

(** ** The sequence counter *)

Lemma buildPackets_tracked :
  forall calls self,
    Forall (fun c => a_seq c <> 0) calls ->
    exists pkts,
      buildPackets calls self
      = (Ret pkts, set_seqN (seqN self + Z.of_nat (length calls)) self) /\
      map sequence_byte pkts
      = map (fun i => (seqN self + Z.of_nat i) mod 256)
            (seq 0 (length calls)).
Proof.
  induction calls as [| c calls IH]; intros self Hall.
  - exists []. split; [| reflexivity].
    cbn. rewrite Z.add_0_r. destruct self; reflexivity.
  - inversion Hall as [| ? ? Hc Hrest]; subst.
    destruct (IH (set_seqN (seqN self + 1) self) Hrest) as (pkts & Hrun & Hseq).
    eexists. split.
    + cbn [buildPackets]. unfold bind at 1.
      rewrite buildPacket_tracked_eq by assumption.
      unfold bind at 1. rewrite Hrun. unfold ret.
      f_equal. destruct self; unfold set_seqN; cbn.
      f_equal. lia.
    + cbn [map sequence_byte nth app length seq].
      rewrite Z.add_0_r. f_equal.
      rewrite Hseq. rewrite <- seq_shift, map_map.
      apply map_ext. intros i. cbn [seqN set_seqN]. f_equal. lia.
Qed.

(** C6.  A run of [buildPacket] calls that all set the sequence flag,
    started at counter value [S], emits the sequence bytes [S mod 256],
    [(S+1) mod 256], ..., [(S+N-1) mod 256] and leaves the counter at [S+N];
    a call with the flag clear emits sequence byte 0 and returns the session
    unchanged. *)
Theorem buildPacket_sequence_numbers :
  forall calls self,
    Forall (fun c => a_seq c <> 0) calls ->
    (exists pkts self',
        buildPackets calls self = (Ret pkts, self') /\
        length pkts = length calls /\
        map sequence_byte pkts
        = map (fun i => (seqN self + Z.of_nat i) mod 256)
              (seq 0 (length calls)) /\
        seqN self' = seqN self + Z.of_nat (length calls)) /\
    (forall cmd2 cmd3 data readonly reply,
        exists pkt,
          buildPacket cmd2 cmd3 data readonly reply 0 self = (Ret pkt, self) /\
          sequence_byte pkt = 0).
Proof.
  intros calls self Hall. split.
  - destruct (buildPackets_tracked calls self Hall) as (pkts & Hrun & Hseq).
    exists pkts. eexists. split; [exact Hrun |]. split; [| split].
    + apply (f_equal (@length Z)) in Hseq.
      rewrite !length_map, length_seq in Hseq. exact Hseq.
    + exact Hseq.
    + reflexivity.
  - intros cmd2 cmd3 data readonly reply. eexists.
    rewrite buildPacket_untracked. split; reflexivity.
Qed.

Lemma buildPacket_sequence_numbers_witness :
  let calls := [mkBuildArgs 0x1A 0x23 [1] 0 0 1;
                mkBuildArgs 0x1A 0x33 [2] 0 0 1;
                mkBuildArgs 0x1A 0x32 [0] 0 0 1] in
  let self := set_seqN 255 (new_session 0 1 []) in
  (exists pkts self',
      buildPackets calls self = (Ret pkts, self') /\
      length pkts = length calls /\
      map sequence_byte pkts
      = map (fun i => (seqN self + Z.of_nat i) mod 256) (seq 0 (length calls)) /\
      seqN self' = seqN self + Z.of_nat (length calls)) /\
  (forall cmd2 cmd3 data readonly reply,
      exists pkt,
        buildPacket cmd2 cmd3 data readonly reply 0 self = (Ret pkt, self) /\
        sequence_byte pkt = 0).
Proof.
  apply buildPacket_sequence_numbers.
  repeat constructor; discriminate.
Defined.

(** ** Commands sent with sequence tracking *)

Lemma after_write_written buff self :
  written (dlp_hid (after_write buff self)) = written (dlp_hid self) ++ [buff].
Proof. reflexivity. Qed.

(** The common body of the tracked commands: build with [readonly=0],
    [reply=0], [seq=1], write, return 1. *)
Lemma tracked_command cmd3 data self :
  (pkt <- buildPacket 0x1A cmd3 data 0 0 1 ;; hid_write pkt ;; ret 1) self
  = (Ret 1, after_write (tracked_frame (seqN self) cmd3 data)
                        (set_seqN (seqN self + 1) self)).
Proof.
  unfold bind at 1. rewrite buildPacket_tracked_eq by discriminate.
  reflexivity.
Qed.

Lemma setPatternTriggerMode_in_range mode self :
  mode <= 4 ->
  setPatternTriggerMode mode self
  = (Ret 1, after_write (tracked_frame (seqN self) 0x23 [mode])
                        (set_seqN (seqN self + 1) self)).
Proof.
  intros H. unfold setPatternTriggerMode.
  destruct (Z.gtb_spec mode 4); [lia |]. apply tracked_command.
Qed.

Lemma setPatternTriggerMode_rejected mode self :
  4 < mode -> setPatternTriggerMode mode self = (Ret (-1), self).
Proof.
  intros H. unfold setPatternTriggerMode.
  destruct (Z.gtb_spec mode 4); [reflexivity | lia].
Qed.

Lemma not_in_spec x l : not_in x l = true <-> ~ In x l.
Proof.
  unfold not_in. rewrite negb_true_iff. split.
  - intros H Hin. assert (existsb (Z.eqb x) l = true); [| congruence].
    apply existsb_exists. exists x. split; [exact Hin | apply Z.eqb_refl].
  - intros H. destruct (existsb (Z.eqb x) l) eqn:E; [| reflexivity].
    apply existsb_exists in E. destruct E as (y & Hy & Exy).
    apply Z.eqb_eq in Exy. subst. contradiction.
Qed.

Lemma not_in_false x l : In x l -> not_in x l = false.
Proof.
  intros H. destruct (not_in x l) eqn:E; [| reflexivity].
  apply not_in_spec in E. contradiction.
Qed.

(** C9.  Out-of-range arguments make [setPatternTriggerMode],
    [setPatternInputSource] and [openMailbox] return the error result -1 with
    the session (transport log and sequence counter included) unchanged;
    in-range arguments make each return 1 after exactly one write, whose
    sequence byte is the counter mod 256, and advance the counter by one. *)
Theorem local_rejection_precedes_io :
  forall mode source function self,
    (4 < mode -> setPatternTriggerMode mode self = (Ret (-1), self)) /\
    (~ In source [0; 3] -> setPatternInputSource source self = (Ret (-1), self)) /\
    (~ In function [1; 2; 3] -> openMailbox function self = (Ret (-1), self)) /\
    (mode <= 4 ->
     setPatternTriggerMode mode self
     = (Ret 1, after_write (tracked_frame (seqN self) 0x23 [mode])
                           (set_seqN (seqN self + 1) self))) /\
    (In source [0; 3] ->
     setPatternInputSource source self
     = (Ret 1, after_write (tracked_frame (seqN self) 0x22 [source])
                           (set_seqN (seqN self + 1) self))) /\
    (In function [1; 2; 3] ->
     openMailbox function self
     = (Ret 1, after_write (tracked_frame (seqN self) 0x33 [function])
                           (set_seqN (seqN self + 1) self))).
Proof.
  intros mode source function self. repeat split.
  - apply setPatternTriggerMode_rejected.
  - intros H. unfold setPatternInputSource.
    rewrite (proj2 (not_in_spec _ _) H). reflexivity.
  - intros H. unfold openMailbox.
    rewrite (proj2 (not_in_spec _ _) H). reflexivity.
  - apply setPatternTriggerMode_in_range.
  - intros H. unfold setPatternInputSource.
    rewrite (not_in_false _ _ H). apply tracked_command.
  - intros H. unfold openMailbox.
    rewrite (not_in_false _ _ H), tracked_command.
    cbn in H. destruct H as [<- | [<- | [<- | []]]]; reflexivity.
Qed.

Lemma local_rejection_precedes_io_witness :
  let self := new_session 0 1 [] in
  (setPatternTriggerMode 5 self = (Ret (-1), self) /\
   setPatternInputSource 1 self = (Ret (-1), self) /\
   openMailbox 4 self = (Ret (-1), self)) /\
  (setPatternTriggerMode 4 self
   = (Ret 1, after_write [0; 0; 1; 3; 0; 0x23; 0x1A; 4] (set_seqN 2 self)) /\
   setPatternInputSource 3 self
   = (Ret 1, after_write [0; 0; 1; 3; 0; 0x22; 0x1A; 3] (set_seqN 2 self)) /\
   openMailbox 2 self
   = (Ret 1, after_write [0; 0; 1; 3; 0; 0x33; 0x1A; 2] (set_seqN 2 self))).
Proof.
  intros self.
  destruct (local_rejection_precedes_io 5 1 4 self) as (Hm & Hs & Hf & _).
  destruct (local_rejection_precedes_io 4 3 2 self) as (_ & _ & _ & Hm' & Hs' & Hf').
  split; split.
  - apply Hm. reflexivity.
  - split.
    + apply Hs. cbn. intros [H | [H | []]]; discriminate H.
    + apply Hf. cbn. intros [H | [H | [H | []]]]; discriminate H.
  - apply Hm'. discriminate.
  - split.
    + apply Hs'. cbn. right. left. reflexivity.
    + apply Hf'. cbn. right. left. reflexivity.
Defined.

(** ** Pattern-sequence upload *)

Lemma len_nonneg (l : list Z) : 0 <= len l.
Proof. unfold len. lia. Qed.

Lemma entries_zero_iff (l : list Z) :
  len l mod 3 = 0 -> (len l / 3 = 0 <-> len l = 0).
Proof.
  intros Hm. pose proof (Z.div_mod (len l) 3 ltac:(lia)). lia.
Qed.

(** C3.  When the byte count of [sequence] is not a nonzero multiple of 3, or
    the number of flash indexes is 0 or exceeds the byte count divided by 3,
    [sendPatternSequence] raises [SettingsError] and the session is the one it
    started from: nothing was written, read or counted.  A sequence of 4
    bytes, and 2 LUT entries with 3 flash indexes, are two such inputs. *)
Theorem sendPatternSequence_rejects_bad_shapes :
  forall sequence flashIndexes displayTime triggerMode repeat self,
    len sequence mod 3 <> 0 \/ len sequence = 0 \/
    len flashIndexes = 0 \/ len flashIndexes > len sequence / 3 ->
    (exists mismatch,
        sendPatternSequence sequence flashIndexes displayTime triggerMode
                            repeat self
        = (Raise (SettingsError mismatch), self)) /\
    (exists mismatch,
        sendPatternSequence [1; 2; 3; 4] [0] displayTime triggerMode repeat self
        = (Raise (SettingsError mismatch), self)) /\
    (exists mismatch,
        sendPatternSequence [1; 2; 3; 4; 5; 6] [0; 1; 2] displayTime
                            triggerMode repeat self
        = (Raise (SettingsError mismatch), self)).
Proof.
  intros sequence flashIndexes displayTime triggerMode repeat self Hbad.
  split; [| split; eexists; reflexivity].
  unfold sendPatternSequence.
  destruct (negb (len sequence mod 3 =? 0) || (len sequence / 3 =? 0)) eqn:E1.
  { eexists. reflexivity. }
  destruct ((len flashIndexes =? 0) || (len flashIndexes >? len sequence / 3))
    eqn:E2.
  { eexists. reflexivity. }
  exfalso.
  apply orb_false_iff in E1. destruct E1 as [E1a E1b].
  apply orb_false_iff in E2. destruct E2 as [E2a E2b].
  apply negb_false_iff in E1a. apply Z.eqb_eq in E1a.
  apply Z.eqb_neq in E1b, E2a.
  rewrite Z.gtb_ltb in E2b. apply Z.ltb_ge in E2b.
  pose proof (entries_zero_iff sequence E1a). lia.
Qed.

Lemma sendPatternSequence_rejects_bad_shapes_witness :
  let self := new_session 0 1 [] in
  (exists mismatch,
      sendPatternSequence [0x00; 0x21; 0x06; 0x00] [0x08] 100000 1 0 self
      = (Raise (SettingsError mismatch), self)) /\
  (exists mismatch,
      sendPatternSequence [1; 2; 3; 4] [0] 100000 1 0 self
      = (Raise (SettingsError mismatch), self)) /\
  (exists mismatch,
      sendPatternSequence [1; 2; 3; 4; 5; 6] [0; 1; 2] 100000 1 0 self
      = (Raise (SettingsError mismatch), self)).
Proof.
  intros self.
  apply (sendPatternSequence_rejects_bad_shapes
           [0x00; 0x21; 0x06; 0x00] [0x08] 100000 1 0 self).
  left. vm_compute. discriminate.
Defined.

Lemma well_shaped_tests sequence flashIndexes :
  well_shaped sequence flashIndexes ->
  negb (len sequence mod 3 =? 0) || (len sequence / 3 =? 0) = false /\
  (len flashIndexes =? 0) || (len flashIndexes >? len sequence / 3) = false.
Proof.
  intros (Hm & Hn & Hf). pose proof (entries_zero_iff sequence Hm) as Hz.
  split; apply orb_false_iff; split.
  - apply negb_false_iff, Z.eqb_eq, Hm.
  - apply Z.eqb_neq. tauto.
  - apply Z.eqb_neq. lia.
  - rewrite Z.gtb_ltb. apply Z.ltb_ge. lia.
Qed.

Lemma LUTControl_eq lutEntries repeat nrOfPattern flashImages self :
  LUTControl lutEntries repeat nrOfPattern flashImages self
  = (Ret 1,
     after_write
       (tracked_frame (seqN self) 0x31
          [Z.land (lutEntries - 1) 0x7F; Z.land repeat 0x01; nrOfPattern - 1;
           Z.land (flashImages - 1) 0x3F])
       (set_seqN (seqN self + 1) self)).
Proof. apply tracked_command. Qed.

Lemma setPatternExposureTime_eq exposure self :
  setPatternExposureTime exposure 0 self
  = (Ret 1,
     after_write
       (tracked_frame (seqN self) 0x29
          (_int2bytesLSB_ exposure ++ _int2bytesLSB_ exposure))
       (set_seqN (seqN self + 1)
          (set_framePeriod (_int2bytesLSB_ exposure)
             (set_exposureTime (_int2bytesLSB_ exposure) self)))).
Proof.
  unfold setPatternExposureTime. cbn [Z.eqb].
  unfold bind at 1. unfold modify_self at 1.
  unfold bind at 1. unfold modify_self at 1.
  rewrite tracked_command. reflexivity.
Qed.

Lemma setLUTOffsetPointer_eq self :
  setLUTOffsetPointer 0 self
  = (Ret 1, after_write (tracked_frame (seqN self) 0x32 [0])
                        (set_seqN (seqN self + 1) self)).
Proof. apply tracked_command. Qed.

Lemma closeMailboxes_eq self :
  closeMailboxes self
  = (Ret 1, after_write (tracked_frame (seqN self) 0x33 [0])
                        (set_seqN (seqN self + 1) self)).
Proof. apply tracked_command. Qed.

Lemma fillPatternData_eq data self :
  fillPatternData data self
  = (Ret 1, after_write (tracked_frame (seqN self) 0x34 data)
                        (set_seqN (seqN self + 1) self)).
Proof. apply tracked_command. Qed.

Lemma setFlashImageIndexes_eq indexes self :
  setFlashImageIndexes indexes self
  = (Ret 1, after_write (tracked_frame (seqN self) 0x34 indexes)
                        (set_seqN (seqN self + 1) self)).
Proof. apply tracked_command. Qed.

Lemma setPatternInputSource_flash self :
  setPatternInputSource 3 self
  = (Ret 1, after_write (tracked_frame (seqN self) 0x22 [3])
                        (set_seqN (seqN self + 1) self)).
Proof. apply tracked_command. Qed.

Lemma openMailbox_eq function self :
  In function [1; 2; 3] ->
  openMailbox function self
  = (Ret 1, after_write (tracked_frame (seqN self) 0x33 [function])
                        (set_seqN (seqN self + 1) self)).
Proof.
  intros H. unfold openMailbox. rewrite (not_in_false _ _ H), tracked_command.
  cbn in H. destruct H as [<- | [<- | [<- | []]]]; reflexivity.
Qed.

(** One step of a straight-line method body: run the command at the head of
    the sequence by its equation. *)
Ltac step_with lem :=
  unfold bind at 1; rewrite lem; cbv beta iota;
  cbn [after_write set_seqN set_dlp_hid set_framePeriod set_exposureTime
       dlp_hid seqN written readlog incoming debug dryrun connected status
       exposureTime framePeriod].

(** C4 (amended).  For well-shaped [sequence] and [flashIndexes] and a
    trigger mode of at most 4, [sendPatternSequence] returns normally after
    writing exactly the twelve buffers of [upload_frames], in that order:
    pattern input source 3, LUT control, exposure time, trigger mode, open
    mailbox 2, LUT offset 0, pattern data, close mailboxes, open mailbox 1,
    LUT offset 0, flash image indexes, close mailboxes.  Nothing is read and
    the counter advances by 12. *)
Theorem sendPatternSequence_twelve_writes :
  forall sequence flashIndexes displayTime triggerMode repeat self,
    well_shaped sequence flashIndexes ->
    triggerMode <= 4 ->
    uploads_twelve sequence flashIndexes displayTime triggerMode repeat self.
Proof.
  intros sequence flashIndexes displayTime triggerMode repeat self Hshape Hmode.
  destruct (well_shaped_tests _ _ Hshape) as [T1 T2].
  unfold uploads_twelve, sendPatternSequence. rewrite T1, T2.
  destruct self as [dbg dry sq conn st et fp [w rl inc]].
  step_with setPatternInputSource_flash.
  step_with LUTControl_eq.
  step_with setPatternExposureTime_eq.
  step_with setPatternTriggerMode_in_range; [| exact Hmode].
  step_with openMailbox_eq; [| cbn; tauto].
  step_with setLUTOffsetPointer_eq.
  step_with fillPatternData_eq.
  step_with closeMailboxes_eq.
  step_with openMailbox_eq; [| cbn; tauto].
  step_with setLUTOffsetPointer_eq.
  step_with setFlashImageIndexes_eq.
  step_with closeMailboxes_eq.
  unfold ret. split; [reflexivity |].
  cbn [after_write set_seqN set_dlp_hid set_framePeriod set_exposureTime
       dlp_hid seqN written readlog incoming debug dryrun connected status
       exposureTime framePeriod].
  split; [| split; [reflexivity | split; [reflexivity | lia]]].
  rewrite <- !app_assoc. cbn [app]. f_equal. unfold upload_frames.
  repeat (f_equal; try lia).
Qed.

Lemma sendPatternSequence_twelve_writes_witness :
  uploads_twelve [0x00; 0x21; 0x06] [0x08] 100000 1 0 (new_session 0 1 []).
Proof.
  apply sendPatternSequence_twelve_writes.
  - unfold well_shaped. vm_compute. repeat split; discriminate.
  - discriminate.
Defined.

(** C4, as stated, fails: with trigger mode 5 the shape tests pass, the
    trigger-mode command is rejected locally and its -1 is ignored, so only
    eleven buffers are written and the counter advances by 11. *)
Lemma sendPatternSequence_mode5_eleven_writes :
  well_shaped [0x00; 0x21; 0x06] [0x08] /\
  ~ uploads_twelve [0x00; 0x21; 0x06] [0x08] 100000 5 0 (new_session 0 1 []) /\
  (let '(r, self') :=
     sendPatternSequence [0x00; 0x21; 0x06] [0x08] 100000 5 0
                         (new_session 0 1 []) in
   r = Ret tt /\ length (written (dlp_hid self')) = 11%nat /\ seqN self' = 12).
Proof.
  split; [| split].
  - unfold well_shaped. vm_compute. repeat split; discriminate.
  - unfold uploads_twelve. vm_compute. intros (_ & _ & _ & _ & H). discriminate H.
  - vm_compute. repeat split.
Qed.

(** ** The validation handshake *)

Lemma nth_error_firstn_5 (d : list Z) (v : Z) :
  nth_error d 4 = Some v -> nth_error (firstn 5 d) 4 = Some v.
Proof.
  destruct d as [| a0 [| a1 [| a2 [| a3 [| a4 d]]]]]; cbn; intros H;
    try discriminate; exact H.
Qed.

Lemma startValidation_eq self :
  startValidation self = (Ret 1, after_write start_packet self).
Proof.
  unfold startValidation. unfold bind at 1.
  rewrite buildPacket_untracked. reflexivity.
Qed.

Lemma getValidationData_eq d rest v self :
  incoming (dlp_hid self) = d :: rest ->
  nth_error d 4 = Some v ->
  getValidationData self = (Ret v, after_poll rest self).
Proof.
  intros Hin Hv. unfold getValidationData. unfold bind at 1.
  rewrite buildPacket_untracked. unfold bind at 1. cbn [hid_write].
  unfold bind at 1, hid_read. cbn [dlp_hid set_dlp_hid incoming].
  rewrite Hin. unfold subscript. rewrite (nth_error_firstn_5 d v Hv).
  reflexivity.
Qed.

Lemma validateSequence_loop_done fuel v self :
  0 <= v < 256 -> Z.testbit v 7 = false ->
  validateSequence_loop fuel v self = (Ret v, self).
Proof.
  intros Hb H7. destruct fuel; cbn [validateSequence_loop];
    rewrite (shiftr_7_byte v Hb), H7; reflexivity.
Qed.

Lemma validateSequence_loop_busy :
  forall busy final rest v fuel d self,
    incoming (dlp_hid self) = busy ++ final :: rest ->
    Forall busy_response busy ->
    nth_error final 4 = Some v -> 0 <= v < 256 -> Z.testbit v 7 = false ->
    0 <= d < 256 -> Z.testbit d 7 = true ->
    (length busy < fuel)%nat ->
    exists self',
      validateSequence_loop fuel d self = (Ret v, self') /\
      written (dlp_hid self')
      = written (dlp_hid self) ++ repeat poll_packet (S (length busy)) /\
      readlog (dlp_hid self')
      = readlog (dlp_hid self) ++ repeat 5%nat (S (length busy)) /\
      incoming (dlp_hid self') = rest /\
      seqN self' = seqN self /\ status self' = status self.
Proof.
  induction busy as [| b busy IH];
    intros final rest v fuel d self Hin Hbusy Hv Hvb Hv7 Hdb Hd7 Hfuel;
    (destruct fuel as [| fuel]; [cbn in Hfuel; lia |]);
    cbn [validateSequence_loop]; rewrite (shiftr_7_byte d Hdb), Hd7;
    unfold bind at 1.
  - rewrite (getValidationData_eq final rest v self Hin Hv).
    rewrite validateSequence_loop_done by assumption.
    eexists. split; [reflexivity |]. repeat split.
  - inversion Hbusy as [| ? ? (w & Hw & Hwb & Hw7) Hrest]; subst.
    rewrite (getValidationData_eq b (busy ++ final :: rest) w self Hin Hw).
    destruct (IH final rest v fuel w (after_poll (busy ++ final :: rest) self))
      as (self' & Hrun & Hwr & Hrd & Hinc & Hseq & Hst);
      try assumption; [reflexivity | cbn in Hfuel; lia |].
    exists self'. split; [exact Hrun |].
    rewrite Hwr, Hrd. cbn [after_poll dlp_hid set_dlp_hid written readlog].
    rewrite <- !app_assoc. repeat split; assumption.
Qed.

(** C7.  After the start-validation write (no read), [validateSequence]
    polls with [getValidationData] until the byte at offset 4 has bit 7
    clear and returns that byte: when the first [k-1] responses are busy and
    the [k]-th carries a byte [v] with bit 7 clear, then with enough fuel the
    result is [v], after one start write followed by [k] polling writes and
    exactly [k] reads of 5 bytes.  For the bytes 0x81, 0x81, 0x00 that is 3
    reads and result 0x00. *)
Theorem validateSequence_polls_until_clear :
  forall busy final rest v fuel self,
    incoming (dlp_hid self) = busy ++ final :: rest ->
    Forall busy_response busy ->
    nth_error final 4 = Some v -> 0 <= v < 256 -> Z.testbit v 7 = false ->
    (length busy <= fuel)%nat ->
    (exists self',
        validateSequence fuel self = (Ret v, self') /\
        written (dlp_hid self')
        = written (dlp_hid self)
            ++ start_packet :: repeat poll_packet (S (length busy)) /\
        readlog (dlp_hid self')
        = readlog (dlp_hid self) ++ repeat 5%nat (S (length busy)) /\
        incoming (dlp_hid self') = rest /\
        seqN self' = seqN self) /\
    (let '(r, self') :=
       validateSequence 2
         (new_session 0 1 [[0; 0; 0; 0; 0x81]; [0; 0; 0; 0; 0x81];
                           [0; 0; 0; 0; 0x00]]) in
     r = Ret 0x00 /\ length (readlog (dlp_hid self')) = 3%nat /\
     written (dlp_hid self')
     = [start_packet; poll_packet; poll_packet; poll_packet]).
Proof.
  intros busy final rest v fuel self Hin Hbusy Hv Hvb Hv7 Hfuel.
  split; [| vm_compute; repeat split].
  unfold validateSequence. unfold bind at 1. rewrite startValidation_eq.
  unfold bind at 1.
  destruct busy as [| b busy].
  - rewrite (getValidationData_eq final rest v (after_write start_packet self)
               Hin Hv).
    rewrite validateSequence_loop_done by assumption.
    eexists. split; [reflexivity |].
    cbn [after_poll after_write dlp_hid set_dlp_hid written readlog incoming
         seqN length repeat].
    rewrite <- app_assoc. repeat split.
  - inversion Hbusy as [| ? ? (w & Hw & Hwb & Hw7) Hrest]; subst.
    rewrite (getValidationData_eq b (busy ++ final :: rest) w
               (after_write start_packet self) Hin Hw).
    destruct (validateSequence_loop_busy busy final rest v fuel w
                (after_poll (busy ++ final :: rest)
                            (after_write start_packet self)))
      as (self' & Hrun & Hwr & Hrd & Hinc & Hseq & _);
      try assumption; [reflexivity |].
    exists self'. split; [exact Hrun |].
    rewrite Hwr, Hrd, Hseq.
    cbn [after_poll after_write dlp_hid set_dlp_hid written readlog incoming
         seqN length repeat].
    rewrite <- !app_assoc. repeat split; assumption.
Qed.

Lemma validateSequence_polls_until_clear_witness :
  let self := new_session 0 1 [[0; 0; 0; 0; 0x81]; [0; 0; 0; 0; 0x81];
                               [0; 0; 0; 0; 0x00]; [0; 0; 0; 0; 0x1F]] in
  (exists self',
      validateSequence 2 self = (Ret 0, self') /\
      written (dlp_hid self')
      = written (dlp_hid self) ++ start_packet :: repeat poll_packet 3 /\
      readlog (dlp_hid self') = readlog (dlp_hid self) ++ repeat 5%nat 3 /\
      incoming (dlp_hid self') = [[0; 0; 0; 0; 0x1F]] /\
      seqN self' = seqN self) /\
  (let '(r, self') :=
     validateSequence 2
       (new_session 0 1 [[0; 0; 0; 0; 0x81]; [0; 0; 0; 0; 0x81];
                         [0; 0; 0; 0; 0x00]]) in
   r = Ret 0x00 /\ length (readlog (dlp_hid self')) = 3%nat /\
   written (dlp_hid self')
   = [start_packet; poll_packet; poll_packet; poll_packet]).
Proof.
  intros self.
  apply (validateSequence_polls_until_clear
           [[0; 0; 0; 0; 0x81]; [0; 0; 0; 0; 0x81]] [0; 0; 0; 0; 0x00]
           [[0; 0; 0; 0; 0x1F]] 0 2 self).
  - reflexivity.
  - assert (Hb : busy_response [0; 0; 0; 0; 0x81])
      by (exists 0x81; split; [reflexivity | split; [lia | reflexivity]]).
    constructor; [exact Hb | constructor; [exact Hb | constructor]].
  - reflexivity.
  - lia.
  - reflexivity.
  - cbn. lia.
Defined.

(** ** LED current readback *)

(** C10.  For a 7-byte response [d], [getLEDCurrent] stores [255 - d[4]],
    [255 - d[5]] and [255 - d[6]] in [ledRed], [ledGreen] and [ledBlue], and
    returns the slice [d[4:6]]: the two raw bytes [d[4]] and [d[5]], not
    inverted, without [d[6]]. *)
Theorem getLEDCurrent_returns_raw_pair :
  forall d rest self,
    length d = 7%nat ->
    incoming (dlp_hid self) = d :: rest ->
    exists self',
      getLEDCurrent self = (Ret [nth 4 d 0; nth 5 d 0], self') /\
      slice d 4 6 = [nth 4 d 0; nth 5 d 0] /\
      ledRed (status self') = 255 - nth 4 d 0 /\
      ledGreen (status self') = 255 - nth 5 d 0 /\
      ledBlue (status self') = 255 - nth 6 d 0 /\
      written (dlp_hid self')
      = written (dlp_hid self) ++ [[0; 0xC0; 0; 2; 0; 0x01; 0x0B]] /\
      readlog (dlp_hid self') = readlog (dlp_hid self) ++ [7%nat] /\
      incoming (dlp_hid self') = rest.
Proof.
  intros d rest self Hlen Hin.
  destruct d as [| a0 [| a1 [| a2 [| a3 [| a4 [| a5 [| a6 [| a7 d]]]]]]]];
    try discriminate Hlen.
  unfold getLEDCurrent. unfold bind at 1. rewrite buildPacket_untracked.
  unfold bind at 1. cbn [hid_write].
  unfold bind at 1, hid_read. cbn [dlp_hid set_dlp_hid incoming].
  rewrite Hin. eexists. split; [reflexivity |].
  repeat split.
Qed.

Lemma getLEDCurrent_returns_raw_pair_witness :
  let d := [0; 0; 0; 0; 0x68; 0x87; 0x82] in
  let self := new_session 0 1 [d] in
  exists self',
    getLEDCurrent self = (Ret [0x68; 0x87], self') /\
    slice d 4 6 = [0x68; 0x87] /\
    ledRed (status self') = 255 - 0x68 /\
    ledGreen (status self') = 255 - 0x87 /\
    ledBlue (status self') = 255 - 0x82 /\
    written (dlp_hid self')
    = written (dlp_hid self) ++ [[0; 0xC0; 0; 2; 0; 0x01; 0x0B]] /\
    readlog (dlp_hid self') = readlog (dlp_hid self) ++ [7%nat] /\
    incoming (dlp_hid self') = [].
Proof.
  intros d self.
  apply (getLEDCurrent_returns_raw_pair d [] self); reflexivity.
Defined.

(** ** Image load timing *)

Lemma _bytes2intLSB_short (b : list Z) (self : DLPC350) :
  (length b <= 3)%nat -> _bytes2intLSB_ b self = (Raise IndexError, self).
Proof.
  intros H.
  destruct b as [| b0 [| b1 [| b2 [| b3 b]]]]; cbn in H; try lia; reflexivity.
Qed.

Lemma _bytes2intLSB_four (b0 b1 b2 b3 : Z) (self : DLPC350) :
  _bytes2intLSB_ [b0; b1; b2; b3] self
  = (Ret (Z.lor (Z.lor (Z.lor (Z.lor 0 (Z.shiftl b0 0)) (Z.shiftl b1 8))
                       (Z.shiftl b2 16)) (Z.shiftl b3 24)), self).
Proof. reflexivity. Qed.

Lemma slice_4_7_short (d : list Z) : (length (slice d 4 7) <= 3)%nat.
Proof. unfold slice. rewrite length_firstn. apply Nat.le_min_l. Qed.

(** C1 (the code departs from the claim).  [getImageLoadTiming] never returns
    a value: after its write and its read of 8 bytes it hands the 3-element
    slice [d[4:7]] to [_bytes2intLSB_], whose loop subscripts index 3, so
    [IndexError] is raised whatever the response is, in particular for a
    response carrying 0x00, 0x49, 0x02 at offsets 4-6.  On the four bytes
    0x00, 0x49, 0x02, 0x00 the decoder yields 149760, whose quotient by 18667
    is 8. *)
Theorem getImageLoadTiming_raises_IndexError :
  forall startingIndex imageNumber self,
    fst (getImageLoadTiming startingIndex imageNumber self) = Raise IndexError /\
    getImageLoadTiming 0 1
      (new_session 0 1 [[0; 0; 0; 0; 0x00; 0x49; 0x02; 0]])
    = (Raise IndexError,
       set_dlp_hid (mkHid [[0; 0x40; 0; 4; 0; 0x3A; 0x1A; 0; 1]] [8%nat] [])
                   (new_session 0 1 [])) /\
    fst (_bytes2intLSB_ [0x00; 0x49; 0x02; 0x00] self) = Ret 149760 /\
    149760 / 18667 = 8.
Proof.
  intros startingIndex imageNumber self.
  split; [| split; [reflexivity | split; reflexivity]].
  unfold getImageLoadTiming. unfold bind at 1. rewrite buildPacket_untracked.
  unfold bind at 1. cbn [hid_write].
  unfold bind at 1, hid_read. cbn [dlp_hid set_dlp_hid incoming].
  destruct (incoming (dlp_hid self)) as [| d rest];
    unfold bind at 1; rewrite _bytes2intLSB_short by apply slice_4_7_short;
    reflexivity.
Qed.

(** ** The LED current guard *)

Lemma checkLedCurrent_pure r g b lcrafterChk :
  exists x, (x = 0 \/ x = 1) /\
            forall self, checkLedCurrent r g b lcrafterChk self = (Ret x, self).
Proof.
  unfold checkLedCurrent.
  destruct ((r >? 255) || (g >? 255) || (b >? 255)).
  - exists 0. split; [left |]; reflexivity.
  - destruct (negb (lcrafterChk =? 0)
              && PrimFloat.ltb 4.2%float (totalCurrent r g b)).
    + exists 0. split; [left |]; reflexivity.
    + exists 1. split; [right |]; reflexivity.
Qed.

Lemma checkLedCurrent_in_range r g b lcrafterChk self :
  r <= 255 -> g <= 255 -> b <= 255 -> lcrafterChk <> 0 ->
  checkLedCurrent r g b lcrafterChk self
  = (Ret (if PrimFloat.ltb 4.2%float (totalCurrent r g b) then 0 else 1), self).
Proof.
  intros Hr Hg Hb Hs. unfold checkLedCurrent.
  destruct (Z.gtb_spec r 255); [lia |].
  destruct (Z.gtb_spec g 255); [lia |].
  destruct (Z.gtb_spec b 255); [lia |].
  destruct (Z.eqb_spec lcrafterChk 0); [contradiction |].
  cbn [orb negb andb].
  destruct (PrimFloat.ltb 4.2%float (totalCurrent r g b)); reflexivity.
Qed.

(** C2 (the code departs from the claim).  [setLEDCurrent] returns 1 in every
    case.  When the guard answers 0 the session is unchanged: nothing is
    written, and no error is raised or returned.  When the guard answers 1,
    exactly one buffer is written, with payload [255 - r], [255 - g],
    [255 - b].  The triple (255, 255, 255) is rejected by the guard and
    [setLEDCurrent] returns 1 for it. *)
Theorem setLEDCurrent_reports_success_on_rejection :
  forall r g b self,
    (fst (checkLedCurrent r g b 1 self) = Ret 0 ->
     setLEDCurrent r g b self = (Ret 1, self)) /\
    (fst (checkLedCurrent r g b 1 self) = Ret 1 ->
     setLEDCurrent r g b self
     = (Ret 1,
        after_write [0; 0; 0; 5; 0; 0x01; 0x0B; 255 - r; 255 - g; 255 - b]
                    self)) /\
    fst (checkLedCurrent 255 255 255 1 self) = Ret 0 /\
    setLEDCurrent 255 255 255 self = (Ret 1, self).
Proof.
  intros r g b self.
  assert (Hrej : forall r g b,
             fst (checkLedCurrent r g b 1 self) = Ret 0 ->
             setLEDCurrent r g b self = (Ret 1, self)).
  { intros r' g' b' H.
    destruct (checkLedCurrent_pure r' g' b' 1) as (x & _ & Hx).
    rewrite Hx in H. cbn in H. injection H as ->.
    unfold setLEDCurrent. unfold bind at 1. rewrite Hx. reflexivity. }
  assert (Hfull : fst (checkLedCurrent 255 255 255 1 self) = Ret 0).
  { rewrite checkLedCurrent_in_range by (try lia; discriminate). reflexivity. }
  split; [apply Hrej | split; [| split; [exact Hfull | apply Hrej, Hfull]]].
  intros H.
  destruct (checkLedCurrent_pure r g b 1) as (x & _ & Hx).
  rewrite Hx in H. cbn in H. injection H as ->.
  unfold setLEDCurrent. unfold bind at 1. rewrite Hx. cbn [Z.eqb Pos.eqb].
  unfold bind at 1. unfold bind at 1. rewrite buildPacket_untracked.
  reflexivity.
Qed.

Lemma setLEDCurrent_reports_success_on_rejection_witness :
  let self := new_session 0 1 [] in
  setLEDCurrent 255 255 255 self = (Ret 1, self) /\
  setLEDCurrent 151 120 125 self
  = (Ret 1, after_write [0; 0; 0; 5; 0; 0x01; 0x0B; 104; 135; 130] self).
Proof.
  intros self.
  destruct (setLEDCurrent_reports_success_on_rejection 255 255 255 self)
    as (Hrej & _).
  destruct (setLEDCurrent_reports_success_on_rejection 151 120 125 self)
    as (_ & Hacc & _).
  split; [apply Hrej | apply Hacc]; reflexivity.
Defined.

(** *** The float comparison against exact arithmetic *)

Lemma forall_from_sound :
  forall n i p,
    forall_from n i p = true ->
    Uint63.to_Z i + Z.of_nat n <= Uint63.wB ->
    forall j,
      Uint63.to_Z i <= Uint63.to_Z j < Uint63.to_Z i + Z.of_nat n ->
      p j = true.
Proof.
  induction n as [| n IH]; intros i p H Hb j Hj; [lia |].
  cbn [forall_from] in H. apply andb_true_iff in H. destruct H as [Hi Hrest].
  destruct (Z.eq_dec (Uint63.to_Z j) (Uint63.to_Z i)) as [E | E].
  - apply Uint63.to_Z_inj in E. subst. exact Hi.
  - pose proof (Uint63.to_Z_bounded i) as Bi.
    assert (E1 : Uint63.to_Z (i + 1)%uint63 = Uint63.to_Z i + 1).
    { rewrite Uint63.add_spec, Uint63.to_Z_1. apply Z.mod_small. lia. }
    apply (IH (i + 1)%uint63 p Hrest); rewrite E1; lia.
Qed.

(** The guard is run on all 256^3 triples of bytes. *)
Lemma guard_agrees_on_bytes :
  forall_from 256 0%uint63 (fun r =>
  forall_from 256 0%uint63 (fun g =>
  forall_from 256 0%uint63 (fun b => guard_agrees r g b))) = true.
Proof. vm_compute. reflexivity. Qed.

Lemma guard_agrees_byte (r g b : int) :
  Uint63.to_Z r < 256 -> Uint63.to_Z g < 256 -> Uint63.to_Z b < 256 ->
  guard_agrees r g b = true.
Proof.
  intros Hr Hg Hb.
  assert (Hw : Uint63.to_Z 0 + Z.of_nat 256 <= Uint63.wB)
    by (vm_compute; discriminate).
  assert (Hin : forall x : int, Uint63.to_Z x < 256 ->
            Uint63.to_Z 0 <= Uint63.to_Z x < Uint63.to_Z 0 + Z.of_nat 256).
  { intros x Hx. pose proof (Uint63.to_Z_bounded x).
    change (Uint63.to_Z 0) with 0. change (Z.of_nat 256) with 256. lia. }
  pose proof guard_agrees_on_bytes as H.
  pose proof (forall_from_sound _ _ _ H Hw r (Hin r Hr)) as H1. cbv beta in H1.
  pose proof (forall_from_sound _ _ _ H1 Hw g (Hin g Hg)) as H2. cbv beta in H2.
  exact (forall_from_sound _ _ _ H2 Hw b (Hin b Hb)).
Qed.

Lemma of_Z_byte (z : Z) : 0 <= z <= 255 -> Uint63.to_Z (Uint63.of_Z z) = z.
Proof.
  intros H. rewrite Uint63.of_Z_spec. apply Z.mod_small.
  assert (256 <= Uint63.wB) by (vm_compute; discriminate). lia.
Qed.

Lemma ltb63_Z (x y : int) :
  Uint63.ltb x y = (Uint63.to_Z x <? Uint63.to_Z y).
Proof.
  destruct (Uint63.ltbP x y) as [H | H]; symmetry;
    [apply Z.ltb_lt | apply Z.ltb_ge]; lia.
Qed.

Lemma totalCurrent_exact (r g b : Z) :
  0 <= r <= 255 -> 0 <= g <= 255 -> 0 <= b <= 255 ->
  PrimFloat.ltb 4.2%float (totalCurrent r g b)
  = (32389 <? 69 * r + 71 * g + 63 * b).
Proof.
  intros Hr Hg Hb.
  pose proof (of_Z_byte r Hr) as Er. pose proof (of_Z_byte g Hg) as Eg.
  pose proof (of_Z_byte b Hb) as Eb.
  assert (Ht : totalCurrent r g b
               = totalCurrent63 (Uint63.of_Z r) (Uint63.of_Z g) (Uint63.of_Z b)).
  { unfold totalCurrent, totalCurrent63, float_of_int.
    destruct (Z.ltb_spec r 0); [lia |].
    destruct (Z.ltb_spec g 0); [lia |].
    destruct (Z.ltb_spec b 0); [lia |]. reflexivity. }
  pose proof (guard_agrees_byte (Uint63.of_Z r) (Uint63.of_Z g) (Uint63.of_Z b))
    as Hag.
  rewrite Er, Eg, Eb in Hag. specialize (Hag ltac:(lia) ltac:(lia) ltac:(lia)).
  unfold guard_agrees in Hag. apply Bool.eqb_prop in Hag.
  rewrite Ht, Hag, ltb63_Z. f_equal.
  assert (Hw : 100000 <= Uint63.wB) by (vm_compute; discriminate).
  rewrite !Uint63.add_spec, !Uint63.mul_spec, Er, Eg, Eb.
  change (Uint63.to_Z 69) with 69. change (Uint63.to_Z 71) with 71.
  change (Uint63.to_Z 63) with 63.
  rewrite (Z.mod_small (69 * r)) by lia.
  rewrite (Z.mod_small (71 * g)) by lia.
  rewrite (Z.mod_small (63 * b)) by lia.
  rewrite (Z.mod_small (69 * r + 71 * g)) by lia.
  apply Z.mod_small. lia.
Qed.

(** C8.  For current settings in 0..255 and a set strict-mode flag,
    [checkLedCurrent] returns 0 exactly when the float
    [totalCurrent r g b] = 0.0069*r + 0.0071*g + 0.0063*b + 0.9611 exceeds
    4.2, and 1 otherwise; on these inputs the float comparison agrees with
    the exact one (69r + 71g + 63b + 9611 > 42000, in units of 0.1 mA).
    [checkLedCurrent 255 255 255] fails with a total between 6.13 and 6.14,
    [checkLedCurrent 0 0 0] succeeds with total 0.9611, and the session,
    transport included, is returned untouched. *)
Theorem checkLedCurrent_strict_guard :
  forall r g b strict self,
    0 <= r <= 255 -> 0 <= g <= 255 -> 0 <= b <= 255 -> strict <> 0 ->
    checkLedCurrent r g b strict self
    = (Ret (if PrimFloat.ltb 4.2%float (totalCurrent r g b) then 0 else 1),
       self) /\
    (PrimFloat.ltb 4.2%float (totalCurrent r g b) = true
     <-> 69 * r + 71 * g + 63 * b + 9611 > 42000) /\
    checkLedCurrent 255 255 255 strict self = (Ret 0, self) /\
    PrimFloat.ltb 6.13%float (totalCurrent 255 255 255) = true /\
    PrimFloat.ltb (totalCurrent 255 255 255) 6.14%float = true /\
    checkLedCurrent 0 0 0 strict self = (Ret 1, self) /\
    totalCurrent 0 0 0 = 0.9611%float.
Proof.
  intros r g b strict self Hr Hg Hb Hs.
  split; [apply checkLedCurrent_in_range; lia || assumption |].
  split.
  { rewrite totalCurrent_exact by assumption. rewrite Z.ltb_lt. lia. }
  split; [rewrite checkLedCurrent_in_range by (lia || assumption);
          reflexivity |].
  split; [reflexivity |]. split; [reflexivity |].
  split; [rewrite checkLedCurrent_in_range by (lia || assumption);
          reflexivity | reflexivity].
Qed.

Lemma checkLedCurrent_strict_guard_witness :
  let self := new_session 0 1 [] in
  checkLedCurrent 151 120 125 1 self
  = (Ret (if PrimFloat.ltb 4.2%float (totalCurrent 151 120 125) then 0 else 1),
     self) /\
  (PrimFloat.ltb 4.2%float (totalCurrent 151 120 125) = true
   <-> 69 * 151 + 71 * 120 + 63 * 125 + 9611 > 42000) /\
  checkLedCurrent 255 255 255 1 self = (Ret 0, self) /\
  PrimFloat.ltb 6.13%float (totalCurrent 255 255 255) = true /\
  PrimFloat.ltb (totalCurrent 255 255 255) 6.14%float = true /\
  checkLedCurrent 0 0 0 1 self = (Ret 1, self) /\
  totalCurrent 0 0 0 = 0.9611%float.
Proof.
  intros self.
  apply (checkLedCurrent_strict_guard 151 120 125 1 self); lia.
Defined.

(** ** Byte packing round trips *)

Lemma byte_field_bit (n k i : Z) :
  0 <= k -> 0 <= i ->
  Z.testbit (Z.shiftl (Z.land (Z.shiftr n k) 0xff) k) i
  = (k <=? i) && (i <? k + 8) && Z.testbit n i.
Proof.
  intros Hk Hi. rewrite Z.shiftl_spec by lia.
  destruct (Z.leb_spec k i) as [Hle | Hlt].
  - rewrite Z.land_spec, Z.shiftr_spec by lia.
    replace (i - k + k) with i by lia.
    change 0xff with (Z.ones 8). rewrite Z.testbit_ones_nonneg by lia.
    destruct (Z.ltb_spec (i - k) 8), (Z.ltb_spec i (k + 8)); try lia;
      destruct (Z.testbit n i); reflexivity.
  - rewrite Z.testbit_neg_r by lia. reflexivity.
Qed.

Lemma _int2bytesLSB_eq (n : Z) :
  _int2bytesLSB_ n
  = [Z.land (Z.shiftr n 0) 0xff; Z.land (Z.shiftr n 8) 0xff;
     Z.land (Z.shiftr n 16) 0xff; Z.land (Z.shiftr n 24) 0xff].
Proof. reflexivity. Qed.

Lemma packed_bytes_value (n : Z) :
  Z.lor (Z.lor (Z.lor (Z.lor 0 (Z.shiftl (Z.land (Z.shiftr n 0) 0xff) 0))
                      (Z.shiftl (Z.land (Z.shiftr n 8) 0xff) 8))
               (Z.shiftl (Z.land (Z.shiftr n 16) 0xff) 16))
        (Z.shiftl (Z.land (Z.shiftr n 24) 0xff) 24)
  = n mod 4294967296.
Proof.
  apply Z.bits_inj'. intros i Hi.
  rewrite !Z.lor_spec, !byte_field_bit, Z.bits_0 by lia.
  change 4294967296 with (2 ^ 32).
  destruct (Z.ltb_spec i 32) as [Hlo | Hhi].
  - rewrite Z.mod_pow2_bits_low by lia.
    destruct (Z.leb_spec 0 i), (Z.ltb_spec i (0 + 8)), (Z.leb_spec 8 i),
      (Z.ltb_spec i (8 + 8)), (Z.leb_spec 16 i), (Z.ltb_spec i (16 + 8)),
      (Z.leb_spec 24 i), (Z.ltb_spec i (24 + 8));
      try lia; cbn [andb orb]; rewrite ?orb_false_r; reflexivity.
  - rewrite Z.mod_pow2_bits_high by lia.
    destruct (Z.ltb_spec i (0 + 8)), (Z.ltb_spec i (8 + 8)),
      (Z.ltb_spec i (16 + 8)), (Z.ltb_spec i (24 + 8));
      try lia; rewrite ?andb_false_r; reflexivity.
Qed.

(** X1.  Decoding the four bytes [_int2bytesLSB_] produces gives back the
    integer reduced mod 2^32, for every integer, negative ones included;
    an integer in 0 .. 2^32-1 is recovered unchanged. *)
Theorem int2bytes_bytes2int_roundtrip :
  forall n self,
    _bytes2intLSB_ (_int2bytesLSB_ n) self = (Ret (n mod 4294967296), self) /\
    (0 <= n < 4294967296 ->
     _bytes2intLSB_ (_int2bytesLSB_ n) self = (Ret n, self)).
Proof.
  intros n self.
  assert (H : _bytes2intLSB_ (_int2bytesLSB_ n) self
              = (Ret (n mod 4294967296), self)).
  { rewrite _int2bytesLSB_eq, _bytes2intLSB_four, packed_bytes_value.
    reflexivity. }
  split; [exact H |]. intros Hn. rewrite H, Z.mod_small by lia. reflexivity.
Qed.

Lemma int2bytes_bytes2int_roundtrip_witness :
  _bytes2intLSB_ (_int2bytesLSB_ (-1)) (new_session 0 1 [])
  = (Ret 4294967295, new_session 0 1 []) /\
  _bytes2intLSB_ (_int2bytesLSB_ 100000) (new_session 0 1 [])
  = (Ret 100000, new_session 0 1 []).
Proof.
  destruct (int2bytes_bytes2int_roundtrip (-1) (new_session 0 1 []))
    as [H1 _].
  destruct (int2bytes_bytes2int_roundtrip 100000 (new_session 0 1 []))
    as [_ H2].
  split; [exact H1 | apply H2; lia].
Defined.

Lemma land_byte_range (z : Z) : is_byte (Z.land z 0xff).
Proof.
  unfold is_byte. change 0xff with (Z.ones 8). rewrite Z.land_ones by lia.
  apply Z.mod_pos_bound. lia.
Qed.

(** X2.  [_int2bytesLSB_] always returns exactly four values, each a byte,
    whatever the integer: larger and negative integers are truncated to
    their low 32 bits, never rejected. *)
Theorem int2bytes_four_bytes :
  forall n,
    length (_int2bytesLSB_ n) = 4%nat /\
    Forall is_byte (_int2bytesLSB_ n) /\
    _int2bytesLSB_ (n + 4294967296) = _int2bytesLSB_ n.
Proof.
  intros n. split; [reflexivity |]. split.
  - rewrite _int2bytesLSB_eq. repeat constructor; apply land_byte_range.
  - rewrite !_int2bytesLSB_eq.
    assert (E : forall k, 0 <= k <= 24 ->
              Z.land (Z.shiftr (n + 4294967296) k) 0xff
              = Z.land (Z.shiftr n k) 0xff).
    { intros k Hk. apply Z.bits_inj'. intros i Hi.
      rewrite !Z.land_spec, !Z.shiftr_spec by lia.
      change 0xff with (Z.ones 8). rewrite Z.testbit_ones_nonneg by lia.
      destruct (Z.ltb_spec i 8); [| rewrite !andb_false_r; reflexivity].
      rewrite !andb_true_r.
      rewrite <- (Z.mod_pow2_bits_low (n + 4294967296) 32 (i + k)) by lia.
      rewrite <- (Z.mod_pow2_bits_low n 32 (i + k)) by lia.
      change (2 ^ 32) with 4294967296.
      rewrite <- (Z.mul_1_l 4294967296) at 1.
      rewrite Z.mod_add by lia. reflexivity. }
    rewrite !E by lia. reflexivity.
Qed.

Lemma lor_shiftl_add (a b k : Z) :
  0 <= k -> 0 <= a < 2 ^ k -> Z.lor a (Z.shiftl b k) = a + b * 2 ^ k.
Proof.
  intros Hk Ha.
  assert (Hdisj : Z.land a (Z.shiftl b k) = 0).
  { apply Z.bits_inj'. intros i Hi. rewrite Z.land_spec, Z.bits_0.
    destruct (Z.ltb_spec i k).
    - rewrite Z.shiftl_spec_low by lia. apply andb_false_r.
    - rewrite <- (Z.mod_small a (2 ^ k)) by lia.
      rewrite Z.mod_pow2_bits_high by lia. reflexivity. }
  pose proof (Z.add_lor_land a (Z.shiftl b k)) as H.
  rewrite Hdisj, Z.add_0_r in H. rewrite H. f_equal.
  apply Z.shiftl_mul_pow2. lia.
Qed.

Lemma packed_value_of_bytes (b0 b1 b2 b3 : Z) :
  is_byte b0 -> is_byte b1 -> is_byte b2 -> is_byte b3 ->
  Z.lor (Z.lor (Z.lor (Z.lor 0 (Z.shiftl b0 0)) (Z.shiftl b1 8))
               (Z.shiftl b2 16)) (Z.shiftl b3 24)
  = b0 + 256 * b1 + 65536 * b2 + 16777216 * b3.
Proof.
  unfold is_byte. intros H0 H1 H2 H3.
  rewrite Z.lor_0_l, Z.shiftl_0_r.
  rewrite (lor_shiftl_add b0 b1 8) by (change (2 ^ 8) with 256; lia).
  rewrite (lor_shiftl_add _ b2 16)
    by (change (2 ^ 8) with 256; change (2 ^ 16) with 65536; lia).
  rewrite (lor_shiftl_add _ b3 24)
    by (change (2 ^ 8) with 256; change (2 ^ 16) with 65536;
        change (2 ^ 24) with 16777216; lia).
  change (2 ^ 8) with 256. change (2 ^ 16) with 65536.
  change (2 ^ 24) with 16777216. lia.
Qed.

Lemma land_shiftr_byte (v k : Z) :
  0 <= k -> Z.land (Z.shiftr v k) 0xff = (v / 2 ^ k) mod 256.
Proof.
  intros Hk. change 0xff with (Z.ones 8).
  rewrite Z.land_ones, Z.shiftr_div_pow2 by lia. reflexivity.
Qed.

(** X3.  On four bytes, [_bytes2intLSB_] returns
    [b0 + 256*b1 + 65536*b2 + 16777216*b3], and [_int2bytesLSB_] of that
    value is the same four bytes again. *)
Theorem bytes2int_int2bytes_roundtrip :
  forall b0 b1 b2 b3 self,
    is_byte b0 -> is_byte b1 -> is_byte b2 -> is_byte b3 ->
    _bytes2intLSB_ [b0; b1; b2; b3] self
    = (Ret (b0 + 256 * b1 + 65536 * b2 + 16777216 * b3), self) /\
    _int2bytesLSB_ (b0 + 256 * b1 + 65536 * b2 + 16777216 * b3)
    = [b0; b1; b2; b3].
Proof.
  intros b0 b1 b2 b3 self H0 H1 H2 H3. split.
  - rewrite _bytes2intLSB_four, packed_value_of_bytes by assumption.
    reflexivity.
  - rewrite _int2bytesLSB_eq, !land_shiftr_byte by lia.
    change (2 ^ 0) with 1. change (2 ^ 8) with 256.
    change (2 ^ 16) with 65536. change (2 ^ 24) with 16777216.
    unfold is_byte in *.
    repeat f_equal; Z.div_mod_to_equations; lia.
Qed.

Lemma bytes2int_int2bytes_roundtrip_witness :
  _bytes2intLSB_ [0x00; 0x49; 0x02; 0x00] (new_session 0 1 [])
  = (Ret (0x00 + 256 * 0x49 + 65536 * 0x02 + 16777216 * 0x00),
     new_session 0 1 []) /\
  _int2bytesLSB_ (0x00 + 256 * 0x49 + 65536 * 0x02 + 16777216 * 0x00)
  = [0x00; 0x49; 0x02; 0x00].
Proof.
  apply (bytes2int_int2bytes_roundtrip 0x00 0x49 0x02 0x00);
    unfold is_byte; lia.
Defined.

(** X4.  [_bytes2intLSB_] raises [IndexError] on every list of fewer than
    four elements (the empty list included) and, on a longer list, reads the
    first four elements only. *)
Theorem bytes2int_needs_four :
  forall b self,
    ((length b < 4)%nat ->
     _bytes2intLSB_ b self = (Raise IndexError, self)) /\
    ((4 <= length b)%nat ->
     _bytes2intLSB_ b self = _bytes2intLSB_ (firstn 4 b) self /\
     exists v, _bytes2intLSB_ b self = (Ret v, self)).
Proof.
  intros b self. split.
  - intros H. apply _bytes2intLSB_short. lia.
  - intros H.
    destruct b as [| b0 [| b1 [| b2 [| b3 b]]]]; cbn in H; try lia.
    split; [reflexivity | eexists; reflexivity].
Qed.

Lemma bytes2int_needs_four_witness :
  _bytes2intLSB_ [] (new_session 0 1 [])
  = (Raise IndexError, new_session 0 1 []) /\
  _bytes2intLSB_ [1; 2; 3; 4; 5] (new_session 0 1 [])
  = _bytes2intLSB_ (firstn 4 [1; 2; 3; 4; 5]) (new_session 0 1 []).
Proof.
  destruct (bytes2int_needs_four [] (new_session 0 1 [])) as [H1 _].
  destruct (bytes2int_needs_four [1; 2; 3; 4; 5] (new_session 0 1 []))
    as [_ H2].
  split; [apply H1; cbn; lia | apply H2; cbn; lia].
Defined.

(** ** Packets are made of bytes *)

Lemma flags_byte (readonly reply : Z) :
  (readonly = 0 \/ readonly = 1) -> (reply = 0 \/ reply = 1) ->
  is_byte (Z.lor (Z.lor 0 (Z.shiftl readonly 7)) (Z.shiftl reply 6)).
Proof.
  intros [-> | ->] [-> | ->]; vm_compute; split; congruence.
Qed.

Lemma header_bytes (n : Z) :
  0 <= n < 65536 -> is_byte (n mod 256) /\ is_byte (n / 256).
Proof.
  intros H. unfold is_byte. split.
  - apply Z.mod_pos_bound. lia.
  - split; [apply Z.div_pos | apply Z.div_lt_upper_bound]; lia.
Qed.

(** X5.  When cmd2, cmd3 and the payload are bytes, the flags are 0 or 1
    and the payload has at most 65533 elements, [buildPacket] returns
    7 + len(payload) values that are all bytes, whatever the value of the
    session counter. *)
Theorem buildPacket_emits_bytes :
  forall cmd2 cmd3 data readonly reply seq self,
    is_byte cmd2 -> is_byte cmd3 -> Forall is_byte data ->
    (readonly = 0 \/ readonly = 1) -> (reply = 0 \/ reply = 1) ->
    len data + 2 < 65536 ->
    exists pkt self',
      buildPacket cmd2 cmd3 data readonly reply seq self = (Ret pkt, self') /\
      Forall is_byte pkt /\
      length pkt = (7 + length data)%nat.
Proof.
  intros cmd2 cmd3 data readonly reply seq self H2 H3 Hd Hro Hre Hlen.
  pose proof (flags_byte readonly reply Hro Hre) as Hf.
  pose proof (len_nonneg data) as Hn.
  destruct (header_bytes (len data + 2) ltac:(lia)) as [Hl Hm].
  assert (Hs : forall s, is_byte (s mod 256))
    by (intros s; apply Z.mod_pos_bound; lia).
  destruct (Z.eq_dec seq 0) as [-> | Hseq].
  - rewrite buildPacket_untracked. do 2 eexists. split; [reflexivity |].
    split; [| reflexivity].
    repeat (apply Forall_cons; [assumption || (unfold is_byte; lia) |]).
    exact Hd.
  - rewrite buildPacket_tracked_eq by assumption.
    do 2 eexists. split; [reflexivity |]. split; [| reflexivity].
    repeat (apply Forall_cons;
            [assumption || apply Hs || (unfold is_byte; lia) |]).
    exact Hd.
Qed.

Lemma buildPacket_emits_bytes_witness :
  exists pkt self',
    buildPacket 0x1A 0x34 [0x00; 0x21; 0x06] 0 0 1
                (set_seqN (-3) (new_session 0 1 []))
    = (Ret pkt, self') /\
    Forall is_byte pkt /\
    length pkt = (7 + length [0x00; 0x21; 0x06])%nat.
Proof.
  apply buildPacket_emits_bytes;
    try (unfold is_byte; lia); try (left; reflexivity).
  - repeat constructor; unfold is_byte; lia.
  - vm_compute. reflexivity.
Defined.

(** X6.  [buildPacket] enforces no bound on the payload: for a payload of
    65534 elements or more it still returns a packet, whose length entry at
    position 4 is 256 or more and so is no byte. *)
Theorem buildPacket_length_unbounded :
  forall cmd2 cmd3 data readonly reply seq self,
    65536 <= len data + 2 ->
    exists pkt self',
      buildPacket cmd2 cmd3 data readonly reply seq self = (Ret pkt, self') /\
      256 <= nth 4 pkt 0 /\
      nth 3 pkt 0 + 256 * nth 4 pkt 0 = len data + 2.
Proof.
  intros cmd2 cmd3 data readonly reply seq self Hlen.
  assert (Hm : 256 <= (len data + 2) / 256)
    by (apply Z.div_le_lower_bound; lia).
  pose proof (length_split (len data + 2)) as Hsplit.
  destruct (Z.eq_dec seq 0) as [-> | Hseq].
  - rewrite buildPacket_untracked. do 2 eexists.
    split; [reflexivity |]. split; [exact Hm | exact Hsplit].
  - rewrite buildPacket_tracked_eq by assumption. do 2 eexists.
    split; [reflexivity |]. split; [exact Hm | exact Hsplit].
Qed.

Lemma buildPacket_length_unbounded_witness :
  exists pkt self',
    buildPacket 0x1A 0x34 (repeat 0 (Z.to_nat 65534)) 0 0 1 (new_session 0 1 [])
    = (Ret pkt, self') /\
    256 <= nth 4 pkt 0 /\
    nth 3 pkt 0 + 256 * nth 4 pkt 0 = len (repeat 0 (Z.to_nat 65534)) + 2.
Proof.
  apply buildPacket_length_unbounded.
  unfold len. rewrite repeat_length. vm_compute. discriminate.
Defined.

(** ** Commands without sequence tracking *)

Lemma land_1_mod (z : Z) : Z.land z 0x01 = z mod 2.
Proof. exact (Z.land_ones z 1 ltac:(lia)). Qed.

Lemma land_1_cases (z : Z) : Z.land z 0x01 = 0 \/ Z.land z 0x01 = 1.
Proof.
  rewrite land_1_mod. pose proof (Z.mod_pos_bound z 2 ltac:(lia)). lia.
Qed.

Lemma land_1_odd (z : Z) : Z.land z 0x01 = if Z.odd z then 1 else 0.
Proof. rewrite land_1_mod. apply Zmod_odd. Qed.

Lemma land_3_range (z : Z) : 0 <= Z.land z 0x03 < 4.
Proof.
  replace (Z.land z 0x03) with (z mod 4)
    by (symmetry; exact (Z.land_ones z 2 ltac:(lia))).
  apply Z.mod_pos_bound. reflexivity.
Qed.

Lemma gpio_cfg_byte (state buffertype direction disable : Z) :
  is_byte (gpio_cfg state buffertype direction disable).
Proof.
  unfold gpio_cfg.
  destruct (land_1_cases state) as [-> | ->],
           (land_1_cases buffertype) as [-> | ->],
           (land_1_cases direction) as [-> | ->],
           (land_1_cases disable) as [-> | ->];
    vm_compute; split; congruence.
Qed.

Lemma oneway_command cmd2 cmd3 payload self :
  (pkt <- buildPacket cmd2 cmd3 payload 0 0 0 ;; hid_write pkt ;; ret 1) self
  = (Ret 1,
     after_write ([0; 0; 0; (len payload + 2) mod 256; (len payload + 2) / 256;
                   cmd3; cmd2] ++ payload) self).
Proof.
  unfold bind at 1. rewrite buildPacket_untracked. reflexivity.
Qed.

(** One case of the family: the command is the common body at [cmd2],
    [cmd3] and [payload], and every value involved is a byte. *)
Ltac oneway_case cmd2 cmd3 payload self :=
  exists cmd2, cmd3, payload;
  split; [exact (oneway_command cmd2 cmd3 payload self) |];
  split; [unfold is_byte; lia |];
  split; [unfold is_byte; lia |];
  split; [| cbn; lia];
  repeat (apply Forall_cons; [auto; unfold is_byte; lia |]);
  apply Forall_nil.

(** X7.  Each command sent without sequence tracking
    ([softwareReset], [enterStandby], [exitStandby], [forceBufferSwap],
    [disableBufferSwapping], [enableBufferSwapping], [disableBufferWrite],
    [enableBufferWrite], [setInputSource], [loadImage], [setDisplayMode],
    [startValidation], [startPatternSequence], [pausePatternSequence],
    [stopPatternSequence], [configureGPIO]) returns 1 for every integer
    argument after writing exactly one packet
    [0; 0; 0; len+2; 0; cmd3; cmd2] ++ payload whose payload of one or two
    values consists of bytes; nothing is read, and the sequence counter and
    the status snapshot stay as they were. *)
Theorem oneway_single_write :
  forall c self,
    exists cmd2 cmd3 payload,
      oneway c self
      = (Ret 1,
         after_write ([0; 0; 0; len payload + 2; 0; cmd3; cmd2] ++ payload)
                     self) /\
      is_byte cmd2 /\ is_byte cmd3 /\ Forall is_byte payload /\
      (1 <= length payload <= 2)%nat.
Proof.
  intros c self.
  assert (B : forall z, 0 <= z < 256 -> is_byte z) by (intros; assumption).
  pose proof land_byte_range as B255. pose proof gpio_cfg_byte as Bcfg.
  assert (B3 : forall z, is_byte (Z.land z 0x03))
    by (intros z; pose proof (land_3_range z); apply B; lia).
  assert (B1 : forall z, is_byte (Z.land z 0x01))
    by (intros z; destruct (land_1_cases z) as [-> | ->]; apply B; lia).
  destruct c; cbn [oneway].
  - oneway_case 0x08 0x02 [0x00] self.
  - oneway_case 0x02 0x00 [0x01] self.
  - oneway_case 0x02 0x00 [0x00] self.
  - oneway_case 0x1A 0x26 [0x01] self.
  - oneway_case 0x10 0x0A [0x01] self.
  - oneway_case 0x10 0x0A [0x00] self.
  - oneway_case 0x1A 0x27 [0x01] self.
  - oneway_case 0x1A 0x27 [0x00] self.
  - oneway_case 0x1A 0x00 [Z.land source 0x03] self.
  - oneway_case 0x1A 0x39 [Z.land index 0xFF] self.
  - oneway_case 0x1A 0x1B [Z.land mode 0x01] self.
  - oneway_case 0x1A 0x1A [0x00] self.
  - oneway_case 0x1A 0x24 [0x02] self.
  - oneway_case 0x1A 0x24 [0x01] self.
  - oneway_case 0x1A 0x24 [0x00] self.
  - oneway_case 0x1A 0x38
      [Z.land pin 0xFF; gpio_cfg state buffertype direction disable] self.
Qed.

(** X8.  The configuration byte [configureGPIO] sends has bit 3 equal to
    the low bit of [state], bit 4 to that of [buffertype], bit 5 to that of
    [direction] and bit 7 to that of [disable]; bits 0, 1, 2 and 6 are
    clear; and the pin byte is [pin mod 256]. *)
Theorem configureGPIO_config_bits :
  forall pin state buffertype direction disable self,
    let cfg := gpio_cfg state buffertype direction disable in
    configureGPIO pin state buffertype direction disable self
    = (Ret 1,
       after_write [0; 0; 0; 4; 0; 0x38; 0x1A; pin mod 256; cfg] self) /\
    Z.testbit cfg 3 = Z.odd state /\
    Z.testbit cfg 4 = Z.odd buffertype /\
    Z.testbit cfg 5 = Z.odd direction /\
    Z.testbit cfg 7 = Z.odd disable /\
    Z.testbit cfg 0 = false /\ Z.testbit cfg 1 = false /\
    Z.testbit cfg 2 = false /\ Z.testbit cfg 6 = false /\
    cfg = 8 * (state mod 2) + 16 * (buffertype mod 2)
          + 32 * (direction mod 2) + 128 * (disable mod 2).
Proof.
  intros pin state buffertype direction disable self cfg.
  split.
  { unfold configureGPIO. fold cfg. rewrite oneway_command.
    rewrite land_255. reflexivity. }
  subst cfg. unfold gpio_cfg.
  rewrite !(Zmod_odd state), !(Zmod_odd buffertype), !(Zmod_odd direction),
    !(Zmod_odd disable).
  rewrite (land_1_odd state), (land_1_odd buffertype),
    (land_1_odd direction), (land_1_odd disable).
  destruct (Z.odd state), (Z.odd buffertype), (Z.odd direction),
    (Z.odd disable); vm_compute; repeat split.
Qed.

(** ** Queries *)

Lemma nth_error_firstn_lt (l : list Z) :
  forall n i, (i < n)%nat -> nth_error (firstn n l) i = nth_error l i.
Proof.
  induction l as [| x l IH]; intros n i H.
  - rewrite firstn_nil. reflexivity.
  - destruct n as [| n]; [lia |]. destruct i as [| i]; [reflexivity |].
    cbn. apply IH. lia.
Qed.

Lemma nth_error_firstn_short (l : list Z) (n i : nat) :
  (length l <= i)%nat -> nth_error (firstn n l) i = None.
Proof.
  intros H. apply nth_error_None. rewrite length_firstn. lia.
Qed.

(** The common head of the queries: build with [readonly=1], [reply=1],
    [seq=0], write, read [n] bytes, and go on with the bytes read. *)
Lemma query_body cmd3 payload n (body : list Z -> M Z) self d rest :
  incoming (dlp_hid self) = d :: rest ->
  (pkt <- buildPacket 0x1A cmd3 payload 1 1 0 ;;
   hid_write pkt ;;
   d <- hid_read n ;;
   body d) self
  = body (firstn n d)
         (after_query ([0; 0xC0; 0; (len payload + 2) mod 256;
                        (len payload + 2) / 256; cmd3; 0x1A] ++ payload)
                      n rest self).
Proof.
  intros Hin. unfold bind at 1. rewrite buildPacket_untracked.
  unfold bind at 1. cbn [hid_write].
  unfold bind at 1, hid_read. cbn [dlp_hid set_dlp_hid incoming].
  rewrite Hin. reflexivity.
Qed.

(** One query against a response without the byte it returns. *)
Ltac query_short cmd3 payload body self d rest Hin Hnone :=
  eexists; split;
  [ refine (eq_trans (query_body cmd3 payload _ body self d rest Hin) _);
    cbv beta; unfold subscript, bind; rewrite Hnone; reflexivity
  | repeat split ].

(** X9.  When the response to a query is too short to hold the byte the
    query returns (fewer than 5 values, or 6 for [readGPIO]; the empty list
    included), each of [getHardwareStatus], [getSystemStatus],
    [getMainStatus], [getCurrentBufferPointer], [getInputSource],
    [getDisplayMode], [getValidationData], [getLEDOutputEnable],
    [getLEDPWMPolarity] and [readGPIO] raises [IndexError].  Its packet, with
    flags byte 0xC0 and sequence byte 0, has been written by then and the
    response consumed; the counter and the status snapshot are unchanged. *)
Theorem query_short_response_raises :
  forall q self d rest,
    incoming (dlp_hid self) = d :: rest ->
    (length d <= reply_offset q)%nat ->
    exists pkt,
      query q self
      = (Raise IndexError, after_query pkt (S (reply_offset q)) rest self) /\
      nth 1 pkt 0 = 0xC0 /\ sequence_byte pkt = 0 /\
      nth 6 pkt 0 = 0x1A.
Proof.
  intros q self d rest Hin Hshort.
  assert (Hnone : nth_error (firstn (S (reply_offset q)) d) (reply_offset q)
                  = None)
    by (apply nth_error_firstn_short; exact Hshort).
  destruct q; cbn [query reply_offset] in *.
  - query_short 0x0A (@nil Z) (fun d => subscript d 4) self d rest Hin Hnone.
  - query_short 0x0B (@nil Z) (fun d => subscript d 4) self d rest Hin Hnone.
  - query_short 0x0C (@nil Z) (fun d => subscript d 4) self d rest Hin Hnone.
  - query_short 0x28 (@nil Z)
      (fun d => d4 <- subscript d 4 ;; ret (Z.land d4 0x01))
      self d rest Hin Hnone.
  - query_short 0x00 (@nil Z)
      (fun d =>
         d4 <- subscript d 4 ;;
         modify_self (fun self =>
           set_status (set_inputsource (Z.land d4 0x03) (status self)) self) ;;
         ret (Z.land d4 0x03))
      self d rest Hin Hnone.
  - query_short 0x1B (@nil Z)
      (fun d =>
         d4 <- subscript d 4 ;;
         modify_self (fun self =>
           set_status (set_displaymode d4 (status self)) self) ;;
         ret d4)
      self d rest Hin Hnone.
  - query_short 0x1A (@nil Z) (fun d => subscript d 4) self d rest Hin Hnone.
  - query_short 0x07 (@nil Z) (fun d => subscript d 4) self d rest Hin Hnone.
  - query_short 0x05 (@nil Z) (fun d => subscript d 4) self d rest Hin Hnone.
  - query_short 0x38 [Z.land pin 0xFF] (fun d => subscript d 5)
      self d rest Hin Hnone.
Qed.

Lemma query_short_response_raises_witness :
  let self := new_session 0 1 [[]; [0; 0; 0; 0; 1]] in
  exists pkt,
    query GetInputSource self
    = (Raise IndexError, after_query pkt 5 [[0; 0; 0; 0; 1]] self) /\
    nth 1 pkt 0 = 0xC0 /\ sequence_byte pkt = 0 /\ nth 6 pkt 0 = 0x1A.
Proof.
  intros self.
  apply (query_short_response_raises GetInputSource self [] [[0; 0; 0; 0; 1]]).
  - reflexivity.
  - cbn. lia.
Defined.

Lemma land_3_mod (z : Z) : Z.land z 0x03 = z mod 4.
Proof. exact (Z.land_ones z 2 ltac:(lia)). Qed.

(** One query against a response that holds the byte it returns. *)
Ltac query_reply cmd3 payload body self d rest Hin Hsome :=
  do 3 eexists; split;
  [ refine (eq_trans (query_body cmd3 payload _ body self d rest Hin) _);
    cbv beta; unfold subscript, bind; rewrite Hsome; reflexivity
  | cbn [after_query set_status set_dlp_hid dlp_hid seqN status
         modify_self];
    rewrite ?land_1_mod, ?land_3_mod; repeat split ].

(** X10.  When the response holds a value [v] at the offset the query
    reads (4, or 5 for [readGPIO]), the query returns after one write and one
    read without touching the counter.  [getCurrentBufferPointer] returns
    [v mod 2] and [getInputSource] returns [v mod 4]; the others return [v]
    as it is.  Only [getInputSource] and [getDisplayMode] store their result
    in the status snapshot; the three status reads leave it unchanged. *)
Theorem query_returns_reply_byte :
  forall q self d rest v,
    incoming (dlp_hid self) = d :: rest ->
    nth_error d (reply_offset q) = Some v ->
    exists pkt r self',
      query q self = (Ret r, self') /\
      dlp_hid self'
      = mkHid (written (dlp_hid self) ++ [pkt])
              (readlog (dlp_hid self) ++ [S (reply_offset q)]) rest /\
      seqN self' = seqN self /\
      r = match q with
          | GetCurrentBufferPointer => v mod 2
          | GetInputSource => v mod 4
          | _ => v
          end /\
      status self'
      = match q with
        | GetInputSource => set_inputsource (v mod 4) (status self)
        | GetDisplayMode => set_displaymode v (status self)
        | _ => status self
        end.
Proof.
  intros q self d rest v Hin Hv.
  assert (Hsome : nth_error (firstn (S (reply_offset q)) d) (reply_offset q)
                  = Some v)
    by (rewrite nth_error_firstn_lt by lia; exact Hv).
  destruct q; cbn [query reply_offset] in *.
  - query_reply 0x0A (@nil Z) (fun d => subscript d 4) self d rest Hin Hsome.
  - query_reply 0x0B (@nil Z) (fun d => subscript d 4) self d rest Hin Hsome.
  - query_reply 0x0C (@nil Z) (fun d => subscript d 4) self d rest Hin Hsome.
  - query_reply 0x28 (@nil Z)
      (fun d => d4 <- subscript d 4 ;; ret (Z.land d4 0x01))
      self d rest Hin Hsome.
  - query_reply 0x00 (@nil Z)
      (fun d =>
         d4 <- subscript d 4 ;;
         modify_self (fun self =>
           set_status (set_inputsource (Z.land d4 0x03) (status self)) self) ;;
         ret (Z.land d4 0x03))
      self d rest Hin Hsome.
  - query_reply 0x1B (@nil Z)
      (fun d =>
         d4 <- subscript d 4 ;;
         modify_self (fun self =>
           set_status (set_displaymode d4 (status self)) self) ;;
         ret d4)
      self d rest Hin Hsome.
  - query_reply 0x1A (@nil Z) (fun d => subscript d 4) self d rest Hin Hsome.
  - query_reply 0x07 (@nil Z) (fun d => subscript d 4) self d rest Hin Hsome.
  - query_reply 0x05 (@nil Z) (fun d => subscript d 4) self d rest Hin Hsome.
  - query_reply 0x38 [Z.land pin 0xFF] (fun d => subscript d 5)
      self d rest Hin Hsome.
Qed.

Lemma query_returns_reply_byte_witness :
  let self := new_session 0 1 [[0; 0; 0; 0; 0xFE]] in
  exists pkt r self',
    query GetInputSource self = (Ret r, self') /\
    dlp_hid self'
    = mkHid (written (dlp_hid self) ++ [pkt])
            (readlog (dlp_hid self) ++ [5%nat]) [] /\
    seqN self' = seqN self /\
    r = 0xFE mod 4 /\
    status self' = set_inputsource (0xFE mod 4) (status self).
Proof.
  intros self.
  apply (query_returns_reply_byte GetInputSource self [0; 0; 0; 0; 0xFE] []
                                  0xFE); reflexivity.
Defined.

(** ** Status polling *)

Lemma status_query_eq cmd3 self d rest v :
  incoming (dlp_hid self) = d :: rest ->
  nth_error d 4 = Some v ->
  (pkt <- buildPacket 0x1A cmd3 [] 1 1 0 ;;
   hid_write pkt ;;
   d <- hid_read 5 ;;
   subscript d 4) self
  = (Ret v, after_query [0; 0xC0; 0; 2; 0; cmd3; 0x1A] 5 rest self).
Proof.
  intros Hin Hv.
  refine (eq_trans (query_body cmd3 [] 5 (fun d => subscript d 4)
                               self d rest Hin) _).
  cbv beta. unfold subscript. rewrite nth_error_firstn_lt by lia.
  rewrite Hv. reflexivity.
Qed.

Lemma getStatus_eq self a b c rest h s m :
  incoming (dlp_hid self) = a :: b :: c :: rest ->
  round_bytes (a, b, c) h s m ->
  getStatus self
  = (Ret (if (h =? 1) && (s =? 1) then 1 else 0), after_status h s m rest self).
Proof.
  intros Hin (Ha & Hb & Hc).
  destruct self as [dbg dry sq conn st et fp [w rl inc]].
  cbn in Hin. subst inc. unfold getStatus.
  unfold bind at 1. unfold getHardwareStatus.
  rewrite (status_query_eq 0x0A _ a (b :: c :: rest) h)
    by (reflexivity || exact Ha).
  unfold bind at 1. unfold modify_self at 1.
  unfold bind at 1. unfold getSystemStatus.
  rewrite (status_query_eq 0x0B _ b (c :: rest) s)
    by (reflexivity || exact Hb).
  unfold bind at 1. unfold modify_self at 1.
  unfold bind at 1. unfold getMainStatus.
  rewrite (status_query_eq 0x0C _ c rest m) by (reflexivity || exact Hc).
  unfold bind at 1. unfold modify_self at 1.
  unfold bind at 1. unfold get_self.
  unfold after_status, after_query, status_packets.
  cbn [set_status set_dlp_hid set_hardware set_system set_main
       dlp_hid seqN status hardware system main written readlog incoming
       debug dryrun connected exposureTime framePeriod displaymode
       inputsource ledRed ledGreen ledBlue].
  rewrite <- !app_assoc. cbn [app].
  destruct ((h =? 1) && (s =? 1)); reflexivity.
Qed.

(** X11.  With three responses carrying the bytes [h], [s] and [m] at
    offset 4, [getStatus] writes the hardware, system and main status
    queries in that order, reads three times, stores the three bytes in the
    snapshot and leaves its other fields alone.  It returns 1 exactly when
    [h = 1] and [s = 1] (the whole byte, not only bit 0), whatever [m] is. *)
Theorem getStatus_nominal_iff :
  forall self a b c rest h s m,
    incoming (dlp_hid self) = a :: b :: c :: rest ->
    round_bytes (a, b, c) h s m ->
    exists r self',
      getStatus self = (Ret r, self') /\
      (r = 1 <-> h = 1 /\ s = 1) /\ (r = 0 \/ r = 1) /\
      written (dlp_hid self') = written (dlp_hid self) ++ status_packets /\
      readlog (dlp_hid self')
      = readlog (dlp_hid self) ++ [5%nat; 5%nat; 5%nat] /\
      incoming (dlp_hid self') = rest /\
      status self'
      = mkStatus h s m (displaymode (status self)) (inputsource (status self))
                 (ledRed (status self)) (ledGreen (status self))
                 (ledBlue (status self)) /\
      seqN self' = seqN self.
Proof.
  intros self a b c rest h s m Hin Hr.
  rewrite (getStatus_eq self a b c rest h s m Hin Hr).
  do 2 eexists. split; [reflexivity |].
  split; [| split; [| repeat split]].
  - destruct (Z.eqb_spec h 1), (Z.eqb_spec s 1); cbn [andb]; split;
      intros H; try (split; assumption); try reflexivity;
      try discriminate H; destruct H; contradiction.
  - destruct ((h =? 1) && (s =? 1)); auto.
Qed.

Lemma getStatus_nominal_iff_witness :
  let self := new_session 0 1 [[0; 0; 0; 0; 0x03]; [0; 0; 0; 0; 0x01];
                               [0; 0; 0; 0; 0x02]] in
  exists r self',
    getStatus self = (Ret r, self') /\
    (r = 1 <-> 0x03 = 1 /\ 0x01 = 1) /\ (r = 0 \/ r = 1) /\
    written (dlp_hid self') = written (dlp_hid self) ++ status_packets /\
    readlog (dlp_hid self') = readlog (dlp_hid self) ++ [5%nat; 5%nat; 5%nat] /\
    incoming (dlp_hid self') = [] /\
    status self'
    = mkStatus 0x03 0x01 0x02 (displaymode (status self))
               (inputsource (status self)) (ledRed (status self))
               (ledGreen (status self)) (ledBlue (status self)) /\
    seqN self' = seqN self.
Proof.
  intros self.
  apply (getStatus_nominal_iff self [0; 0; 0; 0; 0x03] [0; 0; 0; 0; 0x01]
                               [0; 0; 0; 0; 0x02] [] 0x03 0x01 0x02).
  - reflexivity.
  - repeat split.
Defined.

Lemma pollForStatusOK_loop_stops fuel timeout st k self :
  st <> 0 \/ timeout <= k ->
  pollForStatusOK_loop fuel timeout st k self = (Ret st, self).
Proof.
  intros H.
  assert (E : (st =? 0) && (k <? timeout) = false).
  { destruct H as [H | H].
    - apply Z.eqb_neq in H. rewrite H. reflexivity.
    - apply andb_false_iff. right. apply Z.ltb_ge. exact H. }
  destruct fuel; cbn [pollForStatusOK_loop]; rewrite E; reflexivity.
Qed.

Lemma after_status_traffic h s m rest self (n : nat) :
  written (dlp_hid (after_status h s m rest self))
    ++ concat (repeat status_packets n)
  = written (dlp_hid self) ++ concat (repeat status_packets (S n)) /\
  readlog (dlp_hid (after_status h s m rest self)) ++ repeat 5%nat (3 * n)
  = readlog (dlp_hid self) ++ repeat 5%nat (3 * S n).
Proof.
  cbn [after_status dlp_hid set_dlp_hid written readlog repeat concat].
  rewrite <- !app_assoc. split; [reflexivity |].
  replace (3 * S n)%nat with (3 + 3 * n)%nat by lia. reflexivity.
Qed.

Lemma pollForStatusOK_loop_success :
  forall bad good rest timeout fuel k self,
    incoming (dlp_hid self)
    = flat_map status_round bad ++ status_round good ++ rest ->
    Forall faulty_round bad ->
    nominal_round good ->
    k + Z.of_nat (length bad) < timeout ->
    (length bad < fuel)%nat ->
    exists self',
      pollForStatusOK_loop fuel timeout 0 k self = (Ret 1, self') /\
      written (dlp_hid self')
      = written (dlp_hid self)
          ++ concat (repeat status_packets (S (length bad))) /\
      readlog (dlp_hid self')
      = readlog (dlp_hid self) ++ repeat 5%nat (3 * S (length bad)) /\
      incoming (dlp_hid self') = rest /\
      hardware (status self') = 1 /\ system (status self') = 1 /\
      seqN self' = seqN self.
Proof.
  induction bad as [| r bad IH];
    intros good rest timeout fuel k self Hin Hbad Hgood Hk Hfuel;
    (destruct fuel as [| fuel]; [cbn in Hfuel; lia |]);
    cbn [pollForStatusOK_loop length] in *;
    (replace (k <? timeout) with true by (symmetry; apply Z.ltb_lt; lia));
    cbn [Z.eqb andb]; unfold bind at 1.
  - destruct good as [[a b] c]. destruct Hgood as (m & Hm).
    rewrite (getStatus_eq self a b c rest 1 1 m Hin Hm). cbn [Z.eqb Pos.eqb andb].
    rewrite pollForStatusOK_loop_stops by (left; discriminate).
    eexists. split; [reflexivity |].
    cbn. rewrite ?app_nil_r. repeat split.
  - destruct r as [[a b] c].
    inversion Hbad as [| ? ? (h & s & m & Hb & Hne) Hrest]; subst.
    rewrite (getStatus_eq self a b c
               (flat_map status_round bad ++ status_round good ++ rest)
               h s m Hin Hb).
    replace ((h =? 1) && (s =? 1)) with false
      by (symmetry; apply andb_false_iff;
          destruct Hne; [left | right]; apply Z.eqb_neq; assumption).
    destruct (IH good rest timeout fuel (k + 1)
                 (after_status h s m
                    (flat_map status_round bad ++ status_round good ++ rest)
                    self))
      as (self' & Hrun & Hw & Hr & Hinc & Hh & Hs & Hseq);
      [reflexivity | assumption | assumption | lia | lia |].
    exists self'. split; [exact Hrun |].
    destruct (after_status_traffic h s m
                (flat_map status_round bad ++ status_round good ++ rest)
                self (S (length bad))) as [Ew Er].
    rewrite Hw, Hr, Ew, Er. repeat split; assumption.
Qed.

(** X12.  When the responses make [n] faulty [getStatus] rounds followed by
    a nominal one and [n < timeout], [pollForStatusOK] returns 1 after
    exactly [n + 1] rounds, that is 3(n+1) writes and reads; the responses
    behind the nominal round stay unread and the snapshot holds
    hardware = 1 and system = 1. *)
Theorem pollForStatusOK_succeeds_at_first_nominal_round :
  forall bad good rest timeout fuel self,
    incoming (dlp_hid self)
    = flat_map status_round bad ++ status_round good ++ rest ->
    Forall faulty_round bad ->
    nominal_round good ->
    Z.of_nat (length bad) < timeout ->
    (length bad < fuel)%nat ->
    exists self',
      pollForStatusOK fuel timeout self = (Ret 1, self') /\
      written (dlp_hid self')
      = written (dlp_hid self)
          ++ concat (repeat status_packets (S (length bad))) /\
      readlog (dlp_hid self')
      = readlog (dlp_hid self) ++ repeat 5%nat (3 * S (length bad)) /\
      incoming (dlp_hid self') = rest /\
      hardware (status self') = 1 /\ system (status self') = 1 /\
      seqN self' = seqN self.
Proof.
  intros bad good rest timeout fuel self Hin Hbad Hgood Hk Hfuel.
  unfold pollForStatusOK.
  apply (pollForStatusOK_loop_success bad good rest timeout fuel 0 self);
    assumption.
Qed.

Lemma pollForStatusOK_succeeds_at_first_nominal_round_witness :
  let z := [0; 0; 0; 0; 0x00] in
  let o := [0; 0; 0; 0; 0x01] in
  let bad := [(z, z, z); (z, z, z); (z, z, z)] in
  let self := new_session 0 1
                (flat_map status_round bad ++ status_round (o, o, z) ++ [z]) in
  exists self',
    pollForStatusOK 10 10 self = (Ret 1, self') /\
    written (dlp_hid self')
    = written (dlp_hid self) ++ concat (repeat status_packets 4) /\
    readlog (dlp_hid self') = readlog (dlp_hid self) ++ repeat 5%nat 12 /\
    incoming (dlp_hid self') = [z] /\
    hardware (status self') = 1 /\ system (status self') = 1 /\
    seqN self' = seqN self.
Proof.
  intros z o bad self.
  apply (pollForStatusOK_succeeds_at_first_nominal_round
           bad (o, o, z) [z] 10 10 self).
  - reflexivity.
  - assert (Hz : faulty_round (z, z, z)).
    { exists 0, 0, 0. split; [repeat split | left; discriminate]. }
    repeat constructor; exact Hz.
  - exists 0. repeat split.
  - cbn. lia.
  - cbn. lia.
Defined.

Lemma pollForStatusOK_loop_gives_up :
  forall bad rest timeout fuel k self,
    incoming (dlp_hid self) = flat_map status_round bad ++ rest ->
    Forall faulty_round bad ->
    length bad = Z.to_nat (timeout - k) ->
    (length bad <= fuel)%nat ->
    exists self',
      pollForStatusOK_loop fuel timeout 0 k self = (Ret 0, self') /\
      written (dlp_hid self')
      = written (dlp_hid self) ++ concat (repeat status_packets (length bad)) /\
      readlog (dlp_hid self')
      = readlog (dlp_hid self) ++ repeat 5%nat (3 * length bad) /\
      incoming (dlp_hid self') = rest /\
      seqN self' = seqN self.
Proof.
  induction bad as [| r bad IH];
    intros rest timeout fuel k self Hin Hbad Hlen Hfuel.
  - cbn [length] in Hlen.
    rewrite pollForStatusOK_loop_stops by (right; lia).
    exists self. cbn. rewrite !app_nil_r. repeat split. exact Hin.
  - cbn [length] in Hlen, Hfuel.
    destruct fuel as [| fuel]; [lia |].
    cbn [pollForStatusOK_loop length].
    replace (k <? timeout) with true by (symmetry; apply Z.ltb_lt; lia).
    cbn [Z.eqb andb]. unfold bind at 1.
    destruct r as [[a b] c].
    inversion Hbad as [| ? ? (h & s & m & Hb & Hne) Hrest]; subst.
    rewrite (getStatus_eq self a b c (flat_map status_round bad ++ rest)
               h s m Hin Hb).
    replace ((h =? 1) && (s =? 1)) with false
      by (symmetry; apply andb_false_iff;
          destruct Hne; [left | right]; apply Z.eqb_neq; assumption).
    destruct (IH rest timeout fuel (k + 1)
                 (after_status h s m (flat_map status_round bad ++ rest) self))
      as (self' & Hrun & Hw & Hr & Hinc & Hseq);
      [reflexivity | assumption | lia | lia |].
    exists self'. split; [exact Hrun |].
    destruct (after_status_traffic h s m (flat_map status_round bad ++ rest)
                self (length bad)) as [Ew Er].
    rewrite Hw, Hr, Ew, Er. repeat split; assumption.
Qed.

(** X13.  When the first [timeout] rounds of responses are all faulty,
    [pollForStatusOK] returns 0 after exactly [timeout] rounds (3 writes and
    3 reads each) and reads nothing further; for [timeout <= 0] that is no
    traffic at all. *)
Theorem pollForStatusOK_gives_up_after_timeout_rounds :
  forall bad rest timeout fuel self,
    incoming (dlp_hid self) = flat_map status_round bad ++ rest ->
    Forall faulty_round bad ->
    length bad = Z.to_nat timeout ->
    (length bad <= fuel)%nat ->
    exists self',
      pollForStatusOK fuel timeout self = (Ret 0, self') /\
      written (dlp_hid self')
      = written (dlp_hid self) ++ concat (repeat status_packets (length bad)) /\
      readlog (dlp_hid self')
      = readlog (dlp_hid self) ++ repeat 5%nat (3 * length bad) /\
      incoming (dlp_hid self') = rest /\
      seqN self' = seqN self.
Proof.
  intros bad rest timeout fuel self Hin Hbad Hlen Hfuel.
  unfold pollForStatusOK.
  apply (pollForStatusOK_loop_gives_up bad rest timeout fuel 0 self);
    try assumption.
  rewrite Z.sub_0_r. exact Hlen.
Qed.

Lemma pollForStatusOK_gives_up_after_timeout_rounds_witness :
  let z := [0; 0; 0; 0; 0x00] in
  let o := [0; 0; 0; 0; 0x01] in
  let bad := [(o, z, o); (z, o, o)] in
  let self := new_session 0 1 (flat_map status_round bad ++ [o; o; o]) in
  exists self',
    pollForStatusOK 2 2 self = (Ret 0, self') /\
    written (dlp_hid self')
    = written (dlp_hid self) ++ concat (repeat status_packets 2) /\
    readlog (dlp_hid self') = readlog (dlp_hid self) ++ repeat 5%nat 6 /\
    incoming (dlp_hid self') = [o; o; o] /\
    seqN self' = seqN self.
Proof.
  intros z o bad self.
  apply (pollForStatusOK_gives_up_after_timeout_rounds bad [o; o; o] 2 2 self).
  - reflexivity.
  - constructor; [| constructor; [| constructor]].
    + exists 1, 0, 1. split; [repeat split | right; discriminate].
    + exists 0, 1, 1. split; [repeat split | left; discriminate].
  - reflexivity.
  - cbn. lia.
Defined.

(** *** The dry-run device *)

Lemma getStatus_dry self :
  incoming (dlp_hid self) = [] ->
  getStatus self = (Ret 0, after_status 0 0 0 [] self).
Proof.
  intros Hin. destruct self as [dbg dry sq conn st et fp [w rl inc]].
  cbn in Hin. subst inc. unfold after_status. cbn.
  rewrite <- !app_assoc. reflexivity.
Qed.

Lemma pollForStatusOK_loop_dry :
  forall n timeout fuel k self,
    incoming (dlp_hid self) = [] ->
    n = Z.to_nat (timeout - k) ->
    (n <= fuel)%nat ->
    exists self',
      pollForStatusOK_loop fuel timeout 0 k self = (Ret 0, self') /\
      written (dlp_hid self')
      = written (dlp_hid self) ++ concat (repeat status_packets n) /\
      readlog (dlp_hid self')
      = readlog (dlp_hid self) ++ repeat 5%nat (3 * n) /\
      incoming (dlp_hid self') = [] /\
      seqN self' = seqN self.
Proof.
  induction n as [| n IH]; intros timeout fuel k self Hin Hn Hfuel.
  - rewrite pollForStatusOK_loop_stops by (right; lia).
    exists self. cbn. rewrite !app_nil_r. repeat split. exact Hin.
  - destruct fuel as [| fuel]; [lia |].
    cbn [pollForStatusOK_loop].
    replace (k <? timeout) with true by (symmetry; apply Z.ltb_lt; lia).
    cbn [Z.eqb andb]. unfold bind at 1.
    rewrite (getStatus_dry self Hin).
    destruct (IH timeout fuel (k + 1) (after_status 0 0 0 [] self))
      as (self' & Hrun & Hw & Hr & Hinc & Hseq);
      [reflexivity | lia | lia |].
    exists self'. split; [exact Hrun |].
    destruct (after_status_traffic 0 0 0 [] self n) as [Ew Er].
    rewrite Hw, Hr, Ew, Er. repeat split; assumption.
Qed.

(** X14.  Against the dry-run device ([fakehid.device], which answers every
    read with zeros) [pollForStatusOK] never succeeds: it returns 0 after
    exactly [timeout] rounds, 3 reads each (none when [timeout <= 0]). *)
Theorem pollForStatusOK_dry_run_fails :
  forall timeout fuel self,
    incoming (dlp_hid self) = [] ->
    (Z.to_nat timeout <= fuel)%nat ->
    exists self',
      pollForStatusOK fuel timeout self = (Ret 0, self') /\
      written (dlp_hid self')
      = written (dlp_hid self)
          ++ concat (repeat status_packets (Z.to_nat timeout)) /\
      readlog (dlp_hid self')
      = readlog (dlp_hid self) ++ repeat 5%nat (3 * Z.to_nat timeout) /\
      seqN self' = seqN self.
Proof.
  intros timeout fuel self Hin Hfuel. unfold pollForStatusOK.
  destruct (pollForStatusOK_loop_dry (Z.to_nat timeout) timeout fuel 0 self)
    as (self' & Hrun & Hw & Hr & _ & Hseq);
    [assumption | rewrite Z.sub_0_r; reflexivity | assumption |].
  exists self'. repeat split; assumption.
Qed.

Lemma pollForStatusOK_dry_run_fails_witness :
  let self := new_session 0 1 [] in
  exists self',
    pollForStatusOK 10 10 self = (Ret 0, self') /\
    written (dlp_hid self')
    = written (dlp_hid self) ++ concat (repeat status_packets (Z.to_nat 10)) /\
    readlog (dlp_hid self')
    = readlog (dlp_hid self) ++ repeat 5%nat (3 * Z.to_nat 10) /\
    seqN self' = seqN self.
Proof.
  intros self.
  apply (pollForStatusOK_dry_run_fails 10 10 self); [reflexivity | cbn; lia].
Defined.

(** *** Any device *)

Lemma status_query_total cmd3 self :
  exists o self',
    (pkt <- buildPacket 0x1A cmd3 [] 1 1 0 ;;
     hid_write pkt ;;
     d <- hid_read 5 ;;
     subscript d 4) self = (o, self') /\
    o <> OutOfFuel /\ reads self' = S (reads self).
Proof.
  unfold bind at 1. rewrite buildPacket_untracked.
  unfold bind at 1. cbn [hid_write].
  unfold bind at 1, hid_read, reads.
  cbn [dlp_hid set_dlp_hid incoming written readlog].
  assert (Hlen : forall n : nat,
             length (readlog (dlp_hid self) ++ [n])
             = S (length (readlog (dlp_hid self))))
    by (intros n; rewrite length_app; cbn; lia).
  destruct (incoming (dlp_hid self)) as [| d rest]; unfold subscript;
    match goal with
    | |- context [nth_error ?l 4] => destruct (nth_error l 4)
    end;
    do 2 eexists; (split; [reflexivity |]); (split; [discriminate |]);
    cbn [dlp_hid set_dlp_hid readlog]; apply Hlen.
Qed.

Lemma getStatus_total self :
  exists o self',
    getStatus self = (o, self') /\ o <> OutOfFuel /\
    (reads self' <= reads self + 3)%nat.
Proof.
  unfold getStatus, getHardwareStatus, getSystemStatus, getMainStatus.
  unfold bind at 1.
  destruct (status_query_total 0x0A self) as (o1 & s1 & E1 & N1 & R1).
  rewrite E1. destruct o1 as [h | e |];
    [| do 2 eexists; repeat split; [discriminate | lia] | contradiction].
  unfold bind at 1. unfold modify_self at 1. unfold bind at 1.
  match goal with
  | |- context [bind (buildPacket 26 11 _ _ _ _) _ ?st] =>
      destruct (status_query_total 0x0B st) as (o2 & s2 & E2 & N2 & R2)
  end.
  rewrite E2. destruct o2 as [s | e |];
    [| do 2 eexists; repeat split; [discriminate | unfold reads in *; cbn in *; lia]
     | contradiction].
  unfold bind at 1. unfold modify_self at 1. unfold bind at 1.
  match goal with
  | |- context [bind (buildPacket 26 12 _ _ _ _) _ ?st] =>
      destruct (status_query_total 0x0C st) as (o3 & s3 & E3 & N3 & R3)
  end.
  rewrite E3. destruct o3 as [m | e |];
    [| do 2 eexists; repeat split; [discriminate | unfold reads in *; cbn in *; lia]
     | contradiction].
  unfold bind at 1. unfold modify_self at 1. unfold bind at 1, get_self.
  match goal with
  | |- context [if ?t then _ else _] => destruct t
  end;
    do 2 eexists; repeat split; try discriminate;
    unfold reads in *; cbn in *; lia.
Qed.

Lemma pollForStatusOK_loop_bounded :
  forall fuel timeout st k self,
    (Z.to_nat (timeout - k) <= fuel)%nat ->
    exists o self',
      pollForStatusOK_loop fuel timeout st k self = (o, self') /\
      o <> OutOfFuel /\
      (reads self' <= reads self + 3 * Z.to_nat (timeout - k))%nat.
Proof.
  induction fuel as [| fuel IH]; intros timeout st k self Hfuel;
    cbn [pollForStatusOK_loop];
    destruct ((st =? 0) && (k <? timeout)) eqn:E;
    try (do 2 eexists; repeat split; [discriminate | lia]).
  - apply andb_true_iff in E. destruct E as [_ E]. apply Z.ltb_lt in E. lia.
  - apply andb_true_iff in E. destruct E as [_ E]. apply Z.ltb_lt in E.
    unfold bind at 1.
    destruct (getStatus_total self) as (o1 & s1 & E1 & N1 & R1).
    rewrite E1. destruct o1 as [st' | e |];
      [| do 2 eexists; repeat split; [discriminate | lia] | contradiction].
    destruct (IH timeout st' (k + 1) s1 ltac:(lia))
      as (o & self' & Hrun & Hno & Hr).
    exists o, self'. repeat split; [exact Hrun | exact Hno | lia].
Qed.

(** X15.  Whatever the device answers, short responses included,
    [pollForStatusOK] stops within [timeout] rounds: the loop needs no more
    than [timeout] iterations and the call makes at most 3 * timeout reads
    (none for [timeout <= 0]). *)
Theorem pollForStatusOK_bounded :
  forall fuel timeout self,
    (Z.to_nat timeout <= fuel)%nat ->
    exists o self',
      pollForStatusOK fuel timeout self = (o, self') /\
      o <> OutOfFuel /\
      (reads self' <= reads self + 3 * Z.to_nat timeout)%nat.
Proof.
  intros fuel timeout self Hfuel. unfold pollForStatusOK.
  destruct (pollForStatusOK_loop_bounded fuel timeout 0 0 self)
    as (o & self' & Hrun & Hno & Hr);
    [rewrite Z.sub_0_r; exact Hfuel |].
  rewrite Z.sub_0_r in Hr. exists o, self'. repeat split; assumption.
Qed.

Lemma pollForStatusOK_bounded_witness :
  let self := new_session 0 1 [[0; 0; 0; 0; 0]; []; [0; 0; 0; 0; 1]] in
  exists o self',
    pollForStatusOK 3 3 self = (o, self') /\
    o <> OutOfFuel /\
    (reads self' <= reads self + 3 * Z.to_nat 3)%nat.
Proof.
  intros self. apply (pollForStatusOK_bounded 3 3 self). cbn. lia.
Defined.

(** ** The validation loop has no bound *)

Lemma validateSequence_loop_spins :
  forall fuel busy rest d self,
    incoming (dlp_hid self) = busy ++ rest ->
    Forall busy_response busy ->
    0 <= d < 256 -> Z.testbit d 7 = true ->
    (fuel <= length busy)%nat ->
    exists self',
      validateSequence_loop fuel d self = (OutOfFuel, self') /\
      readlog (dlp_hid self') = readlog (dlp_hid self) ++ repeat 5%nat fuel.
Proof.
  induction fuel as [| fuel IH]; intros busy rest d self Hin Hbusy Hd Hd7 Hlen;
    cbn [validateSequence_loop]; rewrite (shiftr_7_byte d Hd), Hd7.
  - exists self. cbn. rewrite app_nil_r. split; reflexivity.
  - destruct busy as [| b busy]; [cbn in Hlen; lia |].
    inversion Hbusy as [| ? ? (w & Hw & Hwb & Hw7) Hrest]; subst.
    unfold bind at 1.
    rewrite (getValidationData_eq b (busy ++ rest) w self Hin Hw).
    destruct (IH busy rest w (after_poll (busy ++ rest) self))
      as (self' & Hrun & Hr);
      [reflexivity | assumption | assumption | assumption
       | cbn in Hlen; lia |].
    exists self'. split; [exact Hrun |].
    rewrite Hr. cbn [after_poll dlp_hid set_dlp_hid readlog repeat].
    rewrite <- app_assoc. reflexivity.
Qed.

(** X16.  [validateSequence] polls for as long as the device reports busy:
    when the first [n] responses all carry a byte with bit 7 set, the loop is
    still running after any [fuel < n] iterations, having made [fuel + 1]
    reads.  The code sets no limit of its own on the number of polls. *)
Theorem validateSequence_polls_while_busy :
  forall fuel busy rest self,
    incoming (dlp_hid self) = busy ++ rest ->
    Forall busy_response busy ->
    (fuel < length busy)%nat ->
    exists self',
      validateSequence fuel self = (OutOfFuel, self') /\
      readlog (dlp_hid self')
      = readlog (dlp_hid self) ++ repeat 5%nat (S fuel).
Proof.
  intros fuel busy rest self Hin Hbusy Hlen.
  destruct busy as [| b busy]; [cbn in Hlen; lia |].
  inversion Hbusy as [| ? ? (w & Hw & Hwb & Hw7) Hrest]; subst.
  unfold validateSequence. unfold bind at 1. rewrite startValidation_eq.
  unfold bind at 1.
  rewrite (getValidationData_eq b (busy ++ rest) w
             (after_write start_packet self) Hin Hw).
  destruct (validateSequence_loop_spins fuel busy rest w
              (after_poll (busy ++ rest) (after_write start_packet self)))
    as (self' & Hrun & Hr);
    [reflexivity | assumption | assumption | assumption
     | cbn in Hlen; lia |].
  exists self'. split; [exact Hrun |].
  rewrite Hr.
  cbn [after_poll after_write dlp_hid set_dlp_hid readlog repeat].
  rewrite <- app_assoc. reflexivity.
Qed.

Lemma validateSequence_polls_while_busy_witness :
  let busy := repeat [0; 0; 0; 0; 0x80] 100 in
  let self := new_session 0 1 busy in
  exists self',
    validateSequence 99 self = (OutOfFuel, self') /\
    readlog (dlp_hid self') = readlog (dlp_hid self) ++ repeat 5%nat 100.
Proof.
  intros busy self.
  apply (validateSequence_polls_while_busy 99 busy [] self).
  - cbn [self new_session dlp_hid incoming]. rewrite app_nil_r. reflexivity.
  - apply Forall_forall. intros d Hd. apply repeat_spec in Hd. subst d.
    exists 0x80. split; [reflexivity | split; [lia | reflexivity]].
  - unfold busy. rewrite repeat_length. lia.
Defined.

(** ** LED currents: partial updates and the round trip *)

(** X17.  When the response to [getLEDCurrent] has fewer than 7 values the
    call raises [IndexError], and the snapshot keeps whatever was assigned
    before the failing subscript: with 5 values [ledRed] is already updated,
    with 6 values [ledRed] and [ledGreen] are, and [ledBlue] never is. *)
Theorem getLEDCurrent_short_response_partial_update :
  forall d rest self,
    (length d < 7)%nat ->
    incoming (dlp_hid self) = d :: rest ->
    exists self',
      getLEDCurrent self = (Raise IndexError, self') /\
      ledRed (status self')
      = (if (5 <=? length d)%nat then 255 - nth 4 d 0
         else ledRed (status self)) /\
      ledGreen (status self')
      = (if (6 <=? length d)%nat then 255 - nth 5 d 0
         else ledGreen (status self)) /\
      ledBlue (status self') = ledBlue (status self) /\
      readlog (dlp_hid self') = readlog (dlp_hid self) ++ [7%nat] /\
      incoming (dlp_hid self') = rest.
Proof.
  intros d rest self Hlen Hin.
  unfold getLEDCurrent. unfold bind at 1. rewrite buildPacket_untracked.
  unfold bind at 1. cbn [hid_write].
  unfold bind at 1, hid_read. cbn [dlp_hid set_dlp_hid incoming].
  rewrite Hin.
  destruct d as [| a0 [| a1 [| a2 [| a3 [| a4 [| a5 [| a6 d]]]]]]];
    cbn [length] in Hlen; try lia;
    eexists; (split; [reflexivity |]); repeat split.
Qed.

Lemma getLEDCurrent_short_response_partial_update_witness :
  let d := [0; 0; 0; 0; 0x68] in
  let self := new_session 0 1 [d] in
  exists self',
    getLEDCurrent self = (Raise IndexError, self') /\
    ledRed (status self')
    = (if (5 <=? length d)%nat then 255 - nth 4 d 0 else ledRed (status self)) /\
    ledGreen (status self')
    = (if (6 <=? length d)%nat then 255 - nth 5 d 0
       else ledGreen (status self)) /\
    ledBlue (status self') = ledBlue (status self) /\
    readlog (dlp_hid self') = readlog (dlp_hid self) ++ [7%nat] /\
    incoming (dlp_hid self') = [].
Proof.
  intros d self.
  apply (getLEDCurrent_short_response_partial_update d [] self).
  - cbn. lia.
  - reflexivity.
Defined.

Lemma setLEDCurrent_accepted r g b self :
  fst (checkLedCurrent r g b 1 self) = Ret 1 ->
  setLEDCurrent r g b self
  = (Ret 1,
     after_write [0; 0; 0; 5; 0; 0x01; 0x0B; 255 - r; 255 - g; 255 - b] self).
Proof.
  intros H.
  destruct (checkLedCurrent_pure r g b 1) as (x & _ & Hx).
  rewrite Hx in H. cbn in H. injection H as ->.
  unfold setLEDCurrent. unfold bind at 1. rewrite Hx. cbn [Z.eqb Pos.eqb].
  unfold bind at 1. unfold bind at 1. rewrite buildPacket_untracked.
  reflexivity.
Qed.

(** X18.  Setting and reading back the LED currents undoes the inversion:
    when the guard accepts [(r, g, b)] and the device answers the following
    [getLEDCurrent] with a 4-value header followed by the three payload bytes
    [setLEDCurrent] sent, the snapshot holds [ledRed = r], [ledGreen = g],
    [ledBlue = b], while the value returned is the raw pair
    [255 - r; 255 - g]. *)
Theorem setLEDCurrent_getLEDCurrent_roundtrip :
  forall r g b hdr rest self,
    fst (checkLedCurrent r g b 1 self) = Ret 1 ->
    length hdr = 4%nat ->
    incoming (dlp_hid self) = (hdr ++ [255 - r; 255 - g; 255 - b]) :: rest ->
    exists self',
      (setLEDCurrent r g b ;; getLEDCurrent) self
      = (Ret [255 - r; 255 - g], self') /\
      ledRed (status self') = r /\
      ledGreen (status self') = g /\
      ledBlue (status self') = b /\
      written (dlp_hid self')
      = written (dlp_hid self)
          ++ [[0; 0; 0; 5; 0; 0x01; 0x0B; 255 - r; 255 - g; 255 - b];
              [0; 0xC0; 0; 2; 0; 0x01; 0x0B]].
Proof.
  intros r g b hdr rest self Hok Hlen Hin.
  destruct hdr as [| h0 [| h1 [| h2 [| h3 [| h4 hdr]]]]];
    try discriminate Hlen.
  unfold bind at 1. rewrite (setLEDCurrent_accepted r g b self Hok).
  unfold getLEDCurrent. unfold bind at 1. rewrite buildPacket_untracked.
  unfold bind at 1. cbn [hid_write].
  unfold bind at 1, hid_read.
  cbn [after_write dlp_hid set_dlp_hid incoming].
  rewrite Hin. eexists. split; [reflexivity |].
  cbn [status set_status set_ledRed set_ledGreen set_ledBlue ledRed ledGreen
       ledBlue dlp_hid set_dlp_hid written].
  rewrite <- app_assoc. repeat split; lia.
Qed.

Lemma setLEDCurrent_getLEDCurrent_roundtrip_witness :
  let self := new_session 0 1 [[0; 0; 0; 0; 255 - 151; 255 - 120; 255 - 125]] in
  exists self',
    (setLEDCurrent 151 120 125 ;; getLEDCurrent) self
    = (Ret [255 - 151; 255 - 120], self') /\
    ledRed (status self') = 151 /\
    ledGreen (status self') = 120 /\
    ledBlue (status self') = 125 /\
    written (dlp_hid self')
    = written (dlp_hid self)
        ++ [[0; 0; 0; 5; 0; 0x01; 0x0B; 255 - 151; 255 - 120; 255 - 125];
            [0; 0xC0; 0; 2; 0; 0x01; 0x0B]].
Proof.
  intros self.
  apply (setLEDCurrent_getLEDCurrent_roundtrip 151 120 125 [0; 0; 0; 0] []
                                               self); reflexivity.
Defined.

(** ** Exposure time and frame period *)

Lemma _bytes2intLSB_int2bytes (n : Z) (self : DLPC350) :
  _bytes2intLSB_ (_int2bytesLSB_ n) self = (Ret (n mod 4294967296), self).
Proof.
  rewrite _int2bytesLSB_eq, _bytes2intLSB_four, packed_bytes_value.
  reflexivity.
Qed.

Lemma _int2bytesLSB_bytes (n : Z) : Forall is_byte (_int2bytesLSB_ n).
Proof.
  rewrite _int2bytesLSB_eq. repeat constructor; apply land_byte_range.
Qed.

Lemma setPatternExposureTime_run exposure longerFramePeriod self :
  let period := if longerFramePeriod =? 1 then exposure + 230 else exposure in
  setPatternExposureTime exposure longerFramePeriod self
  = (Ret 1,
     after_write
       (tracked_frame (seqN self) 0x29
          (_int2bytesLSB_ exposure ++ _int2bytesLSB_ period))
       (set_seqN (seqN self + 1)
          (set_framePeriod (_int2bytesLSB_ period)
             (set_exposureTime (_int2bytesLSB_ exposure) self)))).
Proof.
  intros period. unfold setPatternExposureTime. fold period.
  unfold bind at 1. unfold modify_self at 1.
  unfold bind at 1. unfold modify_self at 1.
  rewrite tracked_command. reflexivity.
Qed.

(** X19.  [setPatternExposureTime] sends one tracked packet of 8 payload
    bytes: the exposure time and then the frame period, each as 4
    little-endian bytes that decode to the value mod 2^32.  The frame period
    is [exposure + 230] when [longerFramePeriod] is 1 and [exposure] for
    every other value; the two 4-byte groups are also stored in the session
    attributes [exposureTime] and [framePeriod]. *)
Theorem setPatternExposureTime_payload :
  forall exposure longerFramePeriod self,
    exists expo peri self',
      setPatternExposureTime exposure longerFramePeriod self = (Ret 1, self') /\
      written (dlp_hid self')
      = written (dlp_hid self)
          ++ [[0; 0; seqN self mod 256; 10; 0; 0x29; 0x1A] ++ expo ++ peri] /\
      length expo = 4%nat /\ length peri = 4%nat /\
      Forall is_byte (expo ++ peri) /\
      fst (_bytes2intLSB_ expo self) = Ret (exposure mod 4294967296) /\
      fst (_bytes2intLSB_ peri self)
      = Ret ((if longerFramePeriod =? 1 then exposure + 230 else exposure)
             mod 4294967296) /\
      exposureTime self' = Some expo /\ framePeriod self' = Some peri /\
      seqN self' = seqN self + 1.
Proof.
  intros exposure longerFramePeriod self.
  pose proof (setPatternExposureTime_run exposure longerFramePeriod self) as H.
  cbv zeta in H.
  exists (_int2bytesLSB_ exposure),
    (_int2bytesLSB_
       (if longerFramePeriod =? 1 then exposure + 230 else exposure)).
  eexists. split; [exact H |].
  split; [reflexivity |]. split; [reflexivity |]. split; [reflexivity |].
  split; [apply Forall_app; split; apply _int2bytesLSB_bytes |].
  rewrite !_bytes2intLSB_int2bytes. repeat split.
Qed.

(** ** Uploads are made of bytes *)

Lemma tracked_frame_bytes s cmd3 data :
  is_byte cmd3 -> Forall is_byte data -> len data + 2 < 65536 ->
  Forall is_byte (tracked_frame s cmd3 data).
Proof.
  intros Hc Hd Hlen. pose proof (len_nonneg data) as Hn.
  destruct (header_bytes (len data + 2) ltac:(lia)) as [Hl Hm].
  unfold tracked_frame. apply Forall_app. split; [| exact Hd].
  repeat (apply Forall_cons;
          [assumption || (apply Z.mod_pos_bound; lia) || (unfold is_byte; lia)
          |]).
  apply Forall_nil.
Qed.

Lemma land_ones_byte (z k : Z) : 0 <= k <= 8 -> is_byte (Z.land z (Z.ones k)).
Proof.
  intros Hk. unfold is_byte. rewrite Z.land_ones by lia.
  pose proof (Z.mod_pos_bound z (2 ^ k) ltac:(apply Z.pow_pos_nonneg; lia)).
  pose proof (Z.pow_le_mono_r 2 k 8 ltac:(lia) ltac:(lia)) as Hp.
  change (2 ^ 8) with 256 in Hp. lia.
Qed.

Lemma sendPatternSequence_run
      sequence flashIndexes displayTime triggerMode repeat self :
  well_shaped sequence flashIndexes ->
  triggerMode <= 4 ->
  exists self',
    sendPatternSequence sequence flashIndexes displayTime triggerMode repeat
                        self = (Ret tt, self') /\
    written (dlp_hid self')
    = written (dlp_hid self)
        ++ upload_frames (seqN self) sequence flashIndexes displayTime
                         triggerMode repeat /\
    readlog (dlp_hid self') = readlog (dlp_hid self) /\
    incoming (dlp_hid self') = incoming (dlp_hid self) /\
    seqN self' = seqN self + 12.
Proof.
  intros Hshape Hmode.
  destruct (well_shaped_tests _ _ Hshape) as [T1 T2].
  unfold sendPatternSequence. rewrite T1, T2.
  destruct self as [dbg dry sq conn st et fp [w rl inc]].
  step_with setPatternInputSource_flash.
  step_with LUTControl_eq.
  step_with setPatternExposureTime_eq.
  step_with setPatternTriggerMode_in_range; [| exact Hmode].
  step_with openMailbox_eq; [| cbn; tauto].
  step_with setLUTOffsetPointer_eq.
  step_with fillPatternData_eq.
  step_with closeMailboxes_eq.
  step_with openMailbox_eq; [| cbn; tauto].
  step_with setLUTOffsetPointer_eq.
  step_with setFlashImageIndexes_eq.
  step_with closeMailboxes_eq.
  unfold ret. eexists. split; [reflexivity |].
  cbn [after_write set_seqN set_dlp_hid set_framePeriod set_exposureTime
       dlp_hid seqN written readlog incoming debug dryrun connected status
       exposureTime framePeriod].
  split; [| split; [reflexivity | split; [reflexivity | lia]]].
  rewrite <- !app_assoc. cbn [app]. f_equal. unfold upload_frames.
  repeat (f_equal; try lia).
Qed.

Lemma upload_frames_bytes s sequence flashIndexes displayTime triggerMode repeat :
  well_shaped sequence flashIndexes ->
  Forall is_byte sequence -> Forall is_byte flashIndexes ->
  0 <= triggerMode <= 4 ->
  len sequence / 3 <= 256 ->
  Forall (Forall is_byte)
         (upload_frames s sequence flashIndexes displayTime triggerMode repeat).
Proof.
  intros (Hm & Hn & Hf) Hseq Hfl Hmode Hmax.
  pose proof (len_nonneg sequence) as Hls.
  pose proof (entries_zero_iff sequence Hm) as Hz.
  assert (Hlen : len sequence = 3 * (len sequence / 3))
    by (pose proof (Z.div_mod (len sequence) 3 ltac:(lia)); lia).
  assert (H1 : 1 <= len sequence / 3)
    by (assert (0 <= len sequence / 3) by (apply Z.div_pos; lia); lia).
  assert (B : forall z, 0 <= z < 256 -> is_byte z) by (intros; assumption).
  assert (One : forall z, is_byte z -> Forall is_byte [z])
    by (intros z Hb; constructor; [exact Hb | constructor]).
  unfold upload_frames.
  repeat (apply Forall_cons; [apply tracked_frame_bytes; try (apply B; lia) |]);
    try apply Forall_nil;
    try (apply One; apply B; lia);
    try assumption;
    try (unfold len in *; cbn [length]; lia).
  - repeat (apply Forall_cons; [| try apply Forall_nil]).
    + exact (land_ones_byte _ 7 ltac:(lia)).
    + exact (land_ones_byte _ 1 ltac:(lia)).
    + apply B. lia.
    + exact (land_ones_byte _ 6 ltac:(lia)).
  - apply Forall_app. split; apply _int2bytesLSB_bytes.
  - unfold len. rewrite length_app. cbn. lia.
Qed.

(** X20.  A pattern-sequence upload puts only bytes on the transport: for a
    well-shaped sequence of at most 256 LUT entries, byte-valued [sequence]
    and [flashIndexes] and a trigger mode in 0..4, every value of each of the
    twelve packets [sendPatternSequence] writes lies in 0..255, for every
    [displayTime], [repeat] and value of the sequence counter. *)
Theorem sendPatternSequence_writes_bytes :
  forall sequence flashIndexes displayTime triggerMode repeat self,
    well_shaped sequence flashIndexes ->
    Forall is_byte sequence -> Forall is_byte flashIndexes ->
    0 <= triggerMode <= 4 ->
    len sequence / 3 <= 256 ->
    exists pkts self',
      sendPatternSequence sequence flashIndexes displayTime triggerMode repeat
                          self = (Ret tt, self') /\
      written (dlp_hid self') = written (dlp_hid self) ++ pkts /\
      length pkts = 12%nat /\
      Forall (Forall is_byte) pkts.
Proof.
  intros sequence flashIndexes displayTime triggerMode repeat self
         Hshape Hseq Hfl Hmode Hmax.
  destruct (sendPatternSequence_run sequence flashIndexes displayTime
              triggerMode repeat self Hshape ltac:(lia))
    as (self' & Hrun & Hw & _).
  exists (upload_frames (seqN self) sequence flashIndexes displayTime
                        triggerMode repeat), self'.
  split; [exact Hrun |]. split; [exact Hw |]. split; [reflexivity |].
  apply upload_frames_bytes; assumption.
Qed.

Lemma sendPatternSequence_writes_bytes_witness :
  let self := set_seqN (-7) (new_session 0 1 []) in
  exists pkts self',
    sendPatternSequence [0x00; 0x21; 0x06] [0x08] (-1) 1 5 self
    = (Ret tt, self') /\
    written (dlp_hid self') = written (dlp_hid self) ++ pkts /\
    length pkts = 12%nat /\
    Forall (Forall is_byte) pkts.
Proof.
  intros self.
  apply (sendPatternSequence_writes_bytes [0x00; 0x21; 0x06] [0x08] (-1) 1 5
                                          self).
  - unfold well_shaped. vm_compute. repeat split; discriminate.
  - repeat constructor; unfold is_byte; lia.
  - repeat constructor; unfold is_byte; lia.
  - lia.
  - vm_compute. discriminate.
Defined.

(** ** Sequence numbers across a session *)

Lemma oneway_step (c : Oneway) (self : DLPC350) :
  exists pkt,
    oneway c self = (Ret 1, after_write pkt self) /\ sequence_byte pkt = 0.
Proof.
  destruct c; cbn [oneway];
    unfold softwareReset, enterStandby, exitStandby, forceBufferSwap,
      disableBufferSwapping, enableBufferSwapping, disableBufferWrite,
      enableBufferWrite, setInputSource, loadImage, setDisplayMode,
      startValidation, startPatternSequence, pausePatternSequence,
      stopPatternSequence, configureGPIO;
    cbv zeta; rewrite oneway_command; eexists; split; reflexivity.
Qed.

Lemma tracked_step (t : Tracked) (self : DLPC350) :
  if acceptedb t then
    exists pkt self',
      tracked t self = (Ret 1, self') /\
      dlp_hid self' = dlp_hid (after_write pkt self) /\
      sequence_byte pkt = seqN self mod 256 /\
      seqN self' = seqN self + 1
  else tracked t self = (Ret (-1), self).
Proof.
  destruct t; cbn [tracked acceptedb];
    unfold setPatternTriggerMode, setTriggerOut1Control, setPatternInputSource,
      LUTControl, setLUTOffsetPointer, openMailbox, closeMailboxes,
      setFlashImageIndexes, fillPatternData;
    cbv zeta;
    try match goal with
      | |- context [negb ?b] => destruct b; cbn [negb]; [reflexivity |]
      end;
    try (rewrite tracked_command; do 2 eexists; repeat split).
  pose proof (setPatternExposureTime_run exposure longerFramePeriod self) as H.
  cbv zeta in H. rewrite H. do 2 eexists. repeat split.
Qed.

Lemma run_commands_sequence :
  forall cs self,
    exists pkts self',
      run_commands cs self = (Ret tt, self') /\
      written (dlp_hid self') = written (dlp_hid self) ++ pkts /\
      readlog (dlp_hid self') = readlog (dlp_hid self) /\
      incoming (dlp_hid self') = incoming (dlp_hid self) /\
      map sequence_byte pkts = sequence_bytes (seqN self) cs /\
      length pkts = length (filter transmits cs) /\
      seqN self' = seqN self + Z.of_nat (length (filter numbered cs)).
Proof.
  induction cs as [| c cs IH]; intros self.
  - exists [], self. cbn. rewrite app_nil_r, Z.add_0_r. repeat split.
  - cbn [run_commands]. unfold bind at 1. destruct c as [c | t].
    + cbn [command]. destruct (oneway_step c self) as (pkt & Hrun & Hsq).
      rewrite Hrun.
      destruct (IH (after_write pkt self))
        as (pkts & self' & Hrest & Hw & Hr & Hi & Hs & Hl & Hn).
      exists (pkt :: pkts), self'. split; [exact Hrest |].
      cbn [after_write dlp_hid set_dlp_hid written readlog incoming seqN]
        in Hw, Hr, Hi, Hs, Hn.
      rewrite <- app_assoc in Hw.
      cbn [map sequence_bytes filter transmits numbered length].
      rewrite Hsq, Hs, Hl. repeat split; assumption.
    + cbn [command]. pose proof (tracked_step t self) as Ht.
      cbn [sequence_bytes filter transmits numbered].
      destruct (acceptedb t).
      * destruct Ht as (pkt & self1 & Hrun & Hhid & Hsq & Hseq).
        rewrite Hrun.
        destruct (IH self1)
          as (pkts & self' & Hrest & Hw & Hr & Hi & Hs & Hl & Hn).
        exists (pkt :: pkts), self'. split; [exact Hrest |].
        rewrite Hhid in Hw, Hr, Hi.
        cbn [after_write dlp_hid set_dlp_hid written readlog incoming]
          in Hw, Hr, Hi.
        rewrite <- app_assoc in Hw. rewrite Hseq in Hs, Hn.
        cbn [map length]. rewrite Hsq, Hs, Hl.
        repeat split; try assumption. lia.
      * rewrite Ht. apply IH.
Qed.

(** X21.  Running any script of commands, tracked and untracked mixed,
    numbers the tracked packets consecutively mod 256 from the counter value
    at the start: untracked packets carry sequence byte 0 and do not advance
    the counter, and a tracked command rejected by its own test
    ([setPatternTriggerMode], [setPatternInputSource], [openMailbox]) writes
    nothing and takes no number.  No command in the script reads. *)
Theorem sequence_numbers_across_commands :
  forall cs self,
    exists pkts self',
      run_commands cs self = (Ret tt, self') /\
      written (dlp_hid self') = written (dlp_hid self) ++ pkts /\
      readlog (dlp_hid self') = readlog (dlp_hid self) /\
      map sequence_byte pkts = sequence_bytes (seqN self) cs /\
      length pkts = length (filter transmits cs) /\
      seqN self' = seqN self + Z.of_nat (length (filter numbered cs)).
Proof.
  intros cs self.
  destruct (run_commands_sequence cs self)
    as (pkts & self' & Hrun & Hw & Hr & _ & Hs & Hl & Hn).
  exists pkts, self'. repeat split; assumption.
Qed.

(** ** Arguments are truncated, not checked *)

Lemma land_ones_add (z k : Z) :
  0 <= k -> Z.land (z + 2 ^ k) (Z.ones k) = Z.land z (Z.ones k).
Proof.
  intros Hk. rewrite !Z.land_ones by lia.
  rewrite <- (Z.mul_1_l (2 ^ k)) at 1.
  apply Z.mod_add. apply Z.pow_nonzero; lia.
Qed.

(** X22.  [setInputSource], [loadImage], [setDisplayMode] and
    [setLUTOffsetPointer] never reject an argument: they keep its low 2, 8, 1
    and 8 bits.  So [source + 4], [index + 256], [mode + 2] and
    [offset + 256] produce exactly the same run as [source], [index], [mode]
    and [offset]. *)
Theorem masked_arguments_wrap :
  forall source index mode offset self,
    setInputSource (source + 4) self = setInputSource source self /\
    loadImage (index + 256) self = loadImage index self /\
    setDisplayMode (mode + 2) self = setDisplayMode mode self /\
    setLUTOffsetPointer (offset + 256) self = setLUTOffsetPointer offset self /\
    setInputSource source self
    = (Ret 1, after_write [0; 0; 0; 3; 0; 0x00; 0x1A; source mod 4] self) /\
    loadImage index self
    = (Ret 1, after_write [0; 0; 0; 3; 0; 0x39; 0x1A; index mod 256] self).
Proof.
  intros source index mode offset self.
  unfold setInputSource, loadImage, setDisplayMode, setLUTOffsetPointer.
  pose proof (land_ones_add source 2 ltac:(lia)) as H2.
  pose proof (land_ones_add index 8 ltac:(lia)) as H8.
  pose proof (land_ones_add mode 1 ltac:(lia)) as H1.
  pose proof (land_ones_add offset 8 ltac:(lia)) as H8'.
  change (2 ^ 2) with 4 in H2. change (Z.ones 2) with 0x03 in H2.
  change (2 ^ 8) with 256 in H8, H8'. change (Z.ones 8) with 0xFF in H8, H8'.
  change (2 ^ 1) with 2 in H1. change (Z.ones 1) with 0x01 in H1.
  rewrite H2, H8, H1, H8'.
  repeat (split; [reflexivity |]).
  rewrite !oneway_command, land_3_mod, land_255. split; reflexivity.
Qed.

Lemma land_127_mod (z : Z) : Z.land z 0x7F = z mod 128.
Proof. exact (Z.land_ones z 7 ltac:(lia)). Qed.

Lemma land_63_mod (z : Z) : Z.land z 0x3F = z mod 64.
Proof. exact (Z.land_ones z 6 ltac:(lia)). Qed.

(** X23.  In an upload of [n] LUT entries the LUT control packet is the
    second packet written, with payload [(n-1) mod 128], [repeat mod 2],
    [n-1], [(flashImages-1) mod 64]: the entry count is sent twice, masked
    to 7 bits the first time and unmasked the second, and the two values
    agree exactly when [n <= 128]. *)
Theorem sendPatternSequence_lut_control_payload :
  forall sequence flashIndexes displayTime triggerMode repeat self,
    well_shaped sequence flashIndexes ->
    triggerMode <= 4 ->
    let n := len sequence / 3 in
    exists self' before after,
      sendPatternSequence sequence flashIndexes displayTime triggerMode repeat
                          self = (Ret tt, self') /\
      written (dlp_hid self')
      = written (dlp_hid self)
          ++ before
          :: ([0; 0; (seqN self + 1) mod 256; 6; 0; 0x31; 0x1A;
               (n - 1) mod 128; repeat mod 2; n - 1;
               (len flashIndexes - 1) mod 64] :: after) /\
      length after = 10%nat /\
      ((n - 1) mod 128 = n - 1 <-> n <= 128).
Proof.
  intros sequence flashIndexes displayTime triggerMode repeat self
         Hshape Hmode n.
  destruct (sendPatternSequence_run sequence flashIndexes displayTime
              triggerMode repeat self Hshape Hmode)
    as (self' & Hrun & Hw & _).
  unfold upload_frames in Hw. fold n in Hw.
  rewrite land_127_mod, land_1_mod, land_63_mod in Hw.
  do 3 eexists. split; [exact Hrun |]. split; [| split].
  - rewrite Hw. reflexivity.
  - reflexivity.
  - destruct Hshape as (Hm & Hn & Hf).
    pose proof (len_nonneg sequence) as Hls.
    pose proof (entries_zero_iff sequence Hm) as Hz.
    assert (H1 : 1 <= n)
      by (assert (0 <= n) by (apply Z.div_pos; lia); subst n; lia).
    split; intros H.
    + pose proof (Z.mod_pos_bound (n - 1) 128 ltac:(lia)). lia.
    + apply Z.mod_small. lia.
Qed.

Lemma sendPatternSequence_lut_control_payload_witness :
  let self := new_session 0 1 [] in
  let n := len [0x00; 0x21; 0x06] / 3 in
  exists self' before after,
    sendPatternSequence [0x00; 0x21; 0x06] [0x08] 100000 1 0 self
    = (Ret tt, self') /\
    written (dlp_hid self')
    = written (dlp_hid self)
        ++ before
        :: ([0; 0; (seqN self + 1) mod 256; 6; 0; 0x31; 0x1A;
             (n - 1) mod 128; 0 mod 2; n - 1; (len [0x08] - 1) mod 64]
              :: after) /\
    length after = 10%nat /\
    ((n - 1) mod 128 = n - 1 <-> n <= 128).
Proof.
  intros self.
  apply (sendPatternSequence_lut_control_payload
           [0x00; 0x21; 0x06] [0x08] 100000 1 0 self).
  - unfold well_shaped. vm_compute. repeat split; discriminate.
  - discriminate.
Defined.
